(** * xpyun-sdk: request signing and the request dispatcher

    A shallow embedding of [xpyun_sdk/auth.py], [xpyun_sdk/exceptions.py]
    and of [XpyunClient._make_request] in [xpyun_sdk/client.py], with the
    properties of the signing scheme and of the error classification.

    Conventions of the embedding.
    - A Python [str] is the list of its Unicode code points ([list N]);
      [bytes] is a list of [Byte.byte].
    - [hashlib.sha1] is the SHA-1 function of FIPS 180-4, on 32-bit words
      kept in [Z] with the wrap-around written out.
    - Values that travel in request and response bodies are the JSON-shaped
      Python values ([value]); a [dict] is an insertion-ordered association
      list, its keys unique ([wf_dict]).
    - The clock, the HTTP session and the console are the outside world:
      they live in an explicit [world] that every effectful function
      threads through.  Exceptions are values of [pyexc]; a computation
      returns [Ok v] or [Raise e]; [try]/[except] picks the first clause
      whose class the exception is an instance of.

    What is taken from the libraries rather than from the repository.
    - [time.time()] is seen through [int(t)] and [int(t * 1000)] only.
    - [requests]: [raise_for_status] raises [HTTPError] for 4xx and 5xx;
      [Response.json()] raises [json.JSONDecodeError] before release 2.27
      and [requests.exceptions.JSONDecodeError] since; the release is a
      parameter of the dispatcher.
    - [requests.Session()] starts with the library's default headers.
    - The JSON decoder refuses some well-formed texts: an integer beyond
      the digit limit ([ValueError]) and nesting beyond the recursion
      limit ([RecursionError]).
    - [str()] and [json.dumps] on JSON-shaped values are parameters; they
      never fail on such values.
    - [print] raises when [sys.stdout] cannot take the line (a
      [UnicodeEncodeError] where the stream's encoding lacks a character).
      [print] is the call on a console that takes every line; [print_on]
      is the call on a console that may refuse one, and [attempt_on],
      [_make_request_on] are the dispatcher on such a console. *)

From Stdlib Require Import ZArith NArith String Ascii Bool Lia List.
From Stdlib.Strings Require Import Byte.
From Stdlib Require Import DecimalString Floats.
Import ListNotations.

Set Warnings "-register-all".

(* ================================================================= *)
(** ** Text and bytes *)

Module Text.

(** A Python [str]: a sequence of code points. *)
Definition str := list N.

Definition bytes := list byte.

(** The code points of an ASCII literal. *)
Fixpoint lit (s : string) : str :=
  match s with
  | EmptyString => []
  | String a s' => N_of_ascii a :: lit s'
  end.

Definition byte_of_N (n : N) : byte :=
  match Byte.of_N (n mod 256) with
  | Some b => b
  | None => x00
  end.

(** Code points U+D800..U+DFFF: [str.encode('utf-8')] refuses them
    (UnicodeEncodeError, "surrogates not allowed"). *)
Definition is_surrogate (c : N) : bool :=
  ((0xD800 <=? c) && (c <=? 0xDFFF))%N.

(** UTF-8 of one code point; [None] where the codec raises. *)
Definition utf8_char (c : N) : option bytes :=
  (if c <? 0x80 then Some [byte_of_N c]
   else if c <? 0x800 then
     Some [byte_of_N (0xC0 + c / 64); byte_of_N (0x80 + c mod 64)]
   else if is_surrogate c then None
   else if c <? 0x10000 then
     Some [byte_of_N (0xE0 + c / 4096);
           byte_of_N (0x80 + (c / 64) mod 64);
           byte_of_N (0x80 + c mod 64)]
   else if c <? 0x110000 then
     Some [byte_of_N (0xF0 + c / 262144);
           byte_of_N (0x80 + (c / 4096) mod 64);
           byte_of_N (0x80 + (c / 64) mod 64);
           byte_of_N (0x80 + c mod 64)]
   else None)%N.

(** [s.encode('utf-8')]. *)
Fixpoint encode_utf8 (s : str) : option bytes :=
  match s with
  | [] => Some []
  | c :: s' =>
      match utf8_char c, encode_utf8 s' with
      | Some b, Some bs => Some (b ++ bs)
      | _, _ => None
      end
  end.

(** [str.lower()] on the ASCII range (the only range it is applied to
    in this program: the text of a hex digest). *)
Definition lower_char (c : N) : N :=
  (if (65 <=? c) && (c <=? 90) then c + 32 else c)%N.

Definition lower (s : str) : str := map lower_char s.

(** [str(n)] for an [int]. *)
Definition str_of_int (z : Z) : str :=
  lit (NilEmpty.string_of_int (Z.to_int z)).

(** The characters [0-9a-f]. *)
Definition is_lower_hex (c : N) : bool :=
  (((48 <=? c) && (c <=? 57)) || ((97 <=? c) && (c <=? 102)))%N.

End Text.

(* ================================================================= *)
(** ** SHA-1 (FIPS 180-4), as [hashlib.sha1] computes it *)

Module SHA1.
Import Text.
Local Open Scope Z_scope.

Definition wrap32 (x : Z) : Z := x mod 2 ^ 32.

Definition add32 (x y : Z) : Z := wrap32 (x + y).

Definition rotl (n x : Z) : Z :=
  Z.lor (wrap32 (Z.shiftl x n)) (Z.shiftr x (32 - n)).

Definition not32 (x : Z) : Z := Z.lxor x 0xFFFFFFFF.

Definition Ch (x y z : Z) : Z := Z.lxor (Z.land x y) (Z.land (not32 x) z).
Definition Parity (x y z : Z) : Z := Z.lxor (Z.lxor x y) z.
Definition Maj (x y z : Z) : Z :=
  Z.lxor (Z.lxor (Z.land x y) (Z.land x z)) (Z.land y z).

(** Round function and constant for round [t] (0..79). *)
Definition f_t (t : nat) : Z -> Z -> Z -> Z :=
  if Nat.ltb t 20 then Ch
  else if Nat.ltb t 40 then Parity
  else if Nat.ltb t 60 then Maj
  else Parity.

Definition K_t (t : nat) : Z :=
  if Nat.ltb t 20 then 0x5A827999
  else if Nat.ltb t 40 then 0x6ED9EBA1
  else if Nat.ltb t 60 then 0x8F1BBCDC
  else 0xCA62C1D6.

(** The five chaining words. *)
Record state := State { h0 : Z; h1 : Z; h2 : Z; h3 : Z; h4 : Z }.

Definition init : state :=
  State 0x67452301 0xEFCDAB89 0x98BADCFE 0x10325476 0xC3D2E1F0.

(** Big-endian bytes of an integer, [n] of them. *)
Fixpoint be_bytes (n : nat) (x : Z) : bytes :=
  match n with
  | O => []
  | S n' => byte_of_N (Z.to_N (Z.shiftr x (8 * Z.of_nat n'))) :: be_bytes n' x
  end.

Definition be_word (bs : bytes) : Z :=
  fold_left (fun acc b => acc * 256 + Z.of_N (Byte.to_N b)) bs 0.

(** Padding: a 1 bit, zeros up to 56 mod 64, the bit length on 64 bits. *)
Definition pad (msg : bytes) : bytes :=
  let len := Z.of_nat (length msg) in
  let k := Z.to_nat ((55 - len) mod 64) in
  msg ++ [x80] ++ repeat x00 k ++ be_bytes 8 (8 * len).

(** The words of a byte string, four bytes each. *)
Fixpoint words (bs : bytes) : list Z :=
  match bs with
  | a :: b :: c :: d :: rest => be_word [a; b; c; d] :: words rest
  | _ => []
  end.

(** Message schedule, most recent word first: from 16 words to 80. *)
Fixpoint schedule (n : nat) (ws : list Z) : list Z :=
  match n with
  | O => ws
  | S n' =>
      let w := rotl 1 (Z.lxor (Z.lxor (Z.lxor (nth 2 ws 0) (nth 7 ws 0))
                                      (nth 13 ws 0)) (nth 15 ws 0)) in
      schedule n' (w :: ws)
  end.

Definition round (t : nat) (w : Z) (s : state) : state :=
  let '(State a b c d e) := s in
  let temp := add32 (add32 (add32 (add32 (rotl 5 a) (f_t t b c d)) e) (K_t t)) w in
  State temp a (rotl 30 b) c d.

Fixpoint rounds (t : nat) (ws : list Z) (s : state) : state :=
  match ws with
  | [] => s
  | w :: ws' => rounds (S t) ws' (round t w s)
  end.

Definition compress (s : state) (block : list Z) : state :=
  let ws := rev (schedule 64 (rev block)) in
  let '(State a b c d e) := rounds 0 ws s in
  State (add32 (h0 s) a) (add32 (h1 s) b) (add32 (h2 s) c)
        (add32 (h3 s) d) (add32 (h4 s) e).

(** The 16-word blocks of a word list. *)
Fixpoint blocks (ws : list Z) : list (list Z) :=
  match ws with
  | w0 :: w1 :: w2 :: w3 :: w4 :: w5 :: w6 :: w7
    :: w8 :: w9 :: w10 :: w11 :: w12 :: w13 :: w14 :: w15 :: rest =>
      [w0; w1; w2; w3; w4; w5; w6; w7; w8; w9; w10; w11; w12; w13; w14; w15]
        :: blocks rest
  | _ => []
  end.

(** [hashlib.sha1(data)]: the hash object after absorbing [data]. *)
Definition sha1 (data : bytes) : state :=
  fold_left compress (blocks (words (pad data))) init.

(** [.digest()]: 20 bytes. *)
Definition digest (s : state) : bytes :=
  be_bytes 4 (h0 s) ++ be_bytes 4 (h1 s) ++ be_bytes 4 (h2 s)
    ++ be_bytes 4 (h3 s) ++ be_bytes 4 (h4 s).

Definition hex_digit (n : N) : N :=
  (if n <? 10 then 48 + n else 87 + n)%N.

Definition hex_of_byte (b : byte) : str :=
  let n := Byte.to_N b in
  [hex_digit (n / 16); hex_digit (n mod 16)]%N.

(** [.hexdigest()]: two hex digits per digest byte. *)
Definition hexdigest (s : state) : str :=
  flat_map hex_of_byte (digest s).

End SHA1.

Import Text.

(* ================================================================= *)
(** ** Python values and dictionaries *)

(** The values that [json.loads] produces and [json.dumps] accepts. *)
Inductive value : Type :=
| VNone
| VBool (b : bool)
| VInt (z : Z)
| VFloat (f : float)
| VStr (s : str)
| VList (l : list value)
| VDict (d : list (str * value)).

(** A [dict] with [str] keys, in insertion order. *)
Definition dict := list (str * value).

Fixpoint str_eqb (a b : str) : bool :=
  match a, b with
  | [], [] => true
  | x :: a', y :: b' => N.eqb x y && str_eqb a' b'
  | _, _ => false
  end.

(** [d.get(k)] as an option: [None] when the key is absent. *)
Fixpoint dict_get (d : dict) (k : str) : option value :=
  match d with
  | [] => None
  | (k', v) :: d' => if str_eqb k k' then Some v else dict_get d' k
  end.

(** [d[k] = v]: an existing key keeps its position, a new key goes last. *)
Fixpoint dict_set (d : dict) (k : str) (v : value) : dict :=
  match d with
  | [] => [(k, v)]
  | (k', v') :: d' =>
      if str_eqb k k' then (k', v) :: d' else (k', v') :: dict_set d' k v
  end.

(** [d.update(p)]: every item of [p] is stored into [d], in order. *)
Definition dict_update (d p : dict) : dict :=
  fold_left (fun acc kv => dict_set acc (fst kv) (snd kv)) p d.


(** Truth value of an optional dictionary ([if params:]). *)
Definition truthy (p : option dict) : bool :=
  match p with
  | None | Some [] => false
  | Some (_ :: _) => true
  end.

(** [x != 0] on JSON-shaped values: [bool] and [float] compare
    numerically with [int], every other type differs from [0]. *)
Definition ne_zero (x : value) : bool :=
  match x with
  | VInt z => negb (Z.eqb z 0)
  | VBool b => b
  | VFloat f => negb (PrimFloat.eqb f 0%float)
  | VNone | VStr _ | VList _ | VDict _ => true
  end.

(* ================================================================= *)
(** ** Exceptions *)

(** The exception classes that can reach the dispatcher: builtins, the
    [json] module, [requests.exceptions] and the SDK's own
    ([exceptions.py]). *)
Inductive exc_class : Type :=
| BaseException | KeyboardInterrupt | SystemExit | GeneratorExit
| Exception | ValueError | TypeError | AttributeError | OSError
| RuntimeError | RecursionError
| UnicodeError | UnicodeEncodeError
| JSONDecodeError                      (* json.JSONDecodeError *)
| RequestException | InvalidJSONError
| RequestsJSONDecodeError              (* requests.exceptions.JSONDecodeError *)
| HTTPError | ConnectionError | ProxyError | SSLError
| Timeout | ConnectTimeout | ReadTimeout
| TooManyRedirects | ChunkedEncodingError | ContentDecodingError
| XpyunError | XpyunAuthError | XpyunAPIError | XpyunNetworkError.

(** Direct base classes. *)
Definition bases (c : exc_class) : list exc_class :=
  match c with
  | BaseException => []
  | KeyboardInterrupt | SystemExit | GeneratorExit | Exception => [BaseException]
  | ValueError | TypeError | AttributeError | OSError => [Exception]
  | RuntimeError => [Exception]
  | RecursionError => [RuntimeError]
  | UnicodeError => [ValueError]
  | UnicodeEncodeError => [UnicodeError]
  | JSONDecodeError => [ValueError]
  | RequestException => [OSError]
  | InvalidJSONError => [RequestException]
  | RequestsJSONDecodeError => [InvalidJSONError; JSONDecodeError]
  | HTTPError | ConnectionError | Timeout | TooManyRedirects => [RequestException]
  | ProxyError | SSLError => [ConnectionError]
  | ConnectTimeout => [ConnectionError; Timeout]
  | ReadTimeout => [Timeout]
  | ChunkedEncodingError => [RequestException]
  | ContentDecodingError => [RequestException]
  | XpyunError => [Exception]
  | XpyunAuthError | XpyunAPIError | XpyunNetworkError => [XpyunError]
  end.

Definition exc_class_eqb (c d : exc_class) : bool :=
  match c, d with
  | BaseException, BaseException | KeyboardInterrupt, KeyboardInterrupt
  | SystemExit, SystemExit | GeneratorExit, GeneratorExit
  | Exception, Exception | ValueError, ValueError | TypeError, TypeError
  | AttributeError, AttributeError | OSError, OSError
  | RuntimeError, RuntimeError | RecursionError, RecursionError
  | UnicodeError, UnicodeError | UnicodeEncodeError, UnicodeEncodeError
  | JSONDecodeError, JSONDecodeError | RequestException, RequestException
  | InvalidJSONError, InvalidJSONError
  | RequestsJSONDecodeError, RequestsJSONDecodeError
  | HTTPError, HTTPError | ConnectionError, ConnectionError
  | ProxyError, ProxyError | SSLError, SSLError | Timeout, Timeout
  | ConnectTimeout, ConnectTimeout | ReadTimeout, ReadTimeout
  | TooManyRedirects, TooManyRedirects
  | ChunkedEncodingError, ChunkedEncodingError
  | ContentDecodingError, ContentDecodingError
  | XpyunError, XpyunError | XpyunAuthError, XpyunAuthError
  | XpyunAPIError, XpyunAPIError | XpyunNetworkError, XpyunNetworkError => true
  | _, _ => false
  end.

(** [issubclass c d], following [bases]; the hierarchy is at most six
    levels deep. *)
Fixpoint issubclass_upto (depth : nat) (c d : exc_class) : bool :=
  exc_class_eqb c d ||
  match depth with
  | O => false
  | S depth' => existsb (fun b => issubclass_upto depth' b d) (bases c)
  end.

Definition issubclass : exc_class -> exc_class -> bool := issubclass_upto 6.

(** An exception object: its class, [str(e)], its instance attributes
    and the exception that was being handled when it was raised
    ([__context__]). *)
Inductive pyexc : Type :=
  PyExc { exc_type : exc_class;
          exc_str : str;
          exc_attrs : dict;
          exc_context : option pyexc }.

Definition isinstance (e : pyexc) (c : exc_class) : bool :=
  issubclass (exc_type e) c.

(** [e.name] for an instance attribute. *)
Definition getattr (e : pyexc) (name : string) : option value :=
  dict_get (exc_attrs e) (lit name).

(* ================================================================= *)
(** ** The outside world and the effect monad *)

(** One call of [time.time()], seen through the two conversions the
    program applies to it. *)
Record reading := Reading {
  seconds : Z;        (* int(time.time()) *)
  millis : Z          (* int(time.time() * 1000) *)
}.

(** What [session.post] is called with. *)
Record request := Request {
  req_url : str;
  req_headers : list (str * str);
  req_json : dict;
  req_timeout : Z
}.

(** The limits of the JSON decoder on well-formed text: an integer with
    more digits than [int()] converts ([ValueError]), nesting deeper than
    the interpreter's recursion limit ([RecursionError]). *)
Inductive decoder_limit : Type :=
| DigitLimit
| DepthLimit.

Definition limit_class (l : decoder_limit) : exc_class :=
  match l with
  | DigitLimit => ValueError
  | DepthLimit => RecursionError
  end.

(** A response body as [response.json()] sees it: the value it decodes
    to, text that is not JSON, or JSON beyond a limit of the decoder. *)
Inductive body : Type :=
| Json (v : value)
| NotJson (complaint : str)     (* the decoder's message *)
| OverLimit (l : decoder_limit) (complaint : str).

(** A [requests.Response]. *)
Record response := Response {
  status_code : Z;
  reason : str;
  url : str;
  content : body
}.

(** How one call of [session.post] ends. *)
Inductive post_outcome : Type :=
| Responded (r : response)
| Failed (e : pyexc).

Record world := World {
  clock : nat -> reading;                    (* the k-th reading of the clock *)
  clock_reads : nat;                         (* readings taken so far *)
  remote : nat -> request -> post_outcome;   (* how the k-th POST ends *)
  posts : list request;                      (* POSTs issued so far, oldest first *)
  stdout : list str                          (* lines printed so far *)
}.

Inductive result (A : Type) : Type :=
| Ok (a : A)
| Raise (e : pyexc).
Arguments Ok {A} a.
Arguments Raise {A} e.

(** Effectful computations: they read and change the world and either
    return or raise. *)
Definition M (A : Type) : Type := world -> result A * world.

Definition ret {A} (a : A) : M A := fun w => (Ok a, w).

Definition raise {A} (e : pyexc) : M A := fun w => (Raise e, w).

Definition bind {A B} (m : M A) (k : A -> M B) : M B :=
  fun w =>
    match m w with
    | (Ok a, w') => k a w'
    | (Raise e, w') => (Raise e, w')
    end.

Declare Scope py_scope.
Delimit Scope py_scope with py.
Notation "x <- m ;; k" := (bind m (fun x => k))
  (at level 61, m at next level, right associativity) : py_scope.
Notation "m ;;; k" := (bind m (fun _ => k))
  (at level 61, right associativity) : py_scope.
Local Open Scope py_scope.

(** An [except C as e:] clause. *)
Definition clause (A : Type) : Type := (exc_class * (pyexc -> M A))%type.

(** The first clause whose class the exception is an instance of. *)
Fixpoint select {A} (clauses : list (clause A)) (e : pyexc) : option (M A) :=
  match clauses with
  | [] => None
  | (c, h) :: rest => if isinstance e c then Some (h e) else select rest e
  end.

(** [try: body  except ...:]; an exception no clause matches propagates. *)
Definition try_except {A} (body : M A) (clauses : list (clause A)) : M A :=
  fun w =>
    match body w with
    | (Ok a, w') => (Ok a, w')
    | (Raise e, w') =>
        match select clauses e with
        | Some h => h w'
        | None => (Raise e, w')
        end
    end.

(** [raise C(text)] inside the handler of [caught]: the new exception
    records [caught] as its context. *)
Definition raise_in_handler {A} (caught : pyexc) (c : exc_class) (text : str) : M A :=
  raise (PyExc c text [] (Some caught)).

(** [int(time.time())]. *)
Definition time_seconds : M Z :=
  fun w =>
    (Ok (seconds (clock w (clock_reads w))),
     World (clock w) (S (clock_reads w)) (remote w) (posts w) (stdout w)).

(** [int(time.time() * 1000)]. *)
Definition time_millis : M Z :=
  fun w =>
    (Ok (millis (clock w (clock_reads w))),
     World (clock w) (S (clock_reads w)) (remote w) (posts w) (stdout w)).

(** [print(line)] on a console that takes the line. *)
Definition print (line : str) : M unit :=
  fun w =>
    (Ok tt, World (clock w) (clock_reads w) (remote w) (posts w) (stdout w ++ [line])).

(** What writing a line to [sys.stdout] raises, if anything. *)
Definition console : Type := str -> option pyexc.

(** The console that takes every line. *)
Definition accepting : console := fun _ => None.

(** [print(line)] on console [out]: a refused line raises and nothing
    is written. *)
Definition print_on (out : console) (line : str) : M unit :=
  match out line with
  | Some e => raise e
  | None => print line
  end.

(** An exception raised while [caught] is being handled records it as
    its context. *)
Definition with_context (e caught : pyexc) : pyexc :=
  PyExc (exc_type e) (exc_str e) (exc_attrs e) (Some caught).

(** [print(line)] inside the handler of [caught]. *)
Definition print_in_handler (out : console) (caught : pyexc) (line : str) : M unit :=
  match out line with
  | Some e => raise (with_context e caught)
  | None => print line
  end.

(** [s.encode('utf-8')], raising where the codec does.  The message is
    abbreviated to its reason. *)
Definition encode (s : str) : M bytes :=
  match encode_utf8 s with
  | Some b => ret b
  | None => raise (PyExc UnicodeEncodeError (lit "surrogates not allowed") [] None)
  end.

(* ================================================================= *)
(** ** auth.py *)

Record XpyunAuth := Build_XpyunAuth {
  user : str;
  user_key : str
}.

(** [XpyunAuth.generate_sign(self, timestamp=None)]. *)
Definition generate_sign (self : XpyunAuth) (timestamp : option str) : M str :=
  timestamp <- match timestamp with
               | None => t <- time_seconds ;; ret (str_of_int t)
               | Some ts => ret ts
               end ;;
  let sign_str := user self ++ user_key self ++ timestamp in
  data <- encode sign_str ;;
  let sha1_hash := SHA1.sha1 data in
  ret (lower (SHA1.hexdigest sha1_hash)).

(** [XpyunAuth.get_auth_params(self)]. *)
Definition get_auth_params (self : XpyunAuth) : M dict :=
  t <- time_seconds ;;
  let timestamp := str_of_int t in
  sign <- generate_sign self (Some timestamp) ;;
  ret [(lit "user", VStr (user self));
       (lit "timestamp", VStr timestamp);
       (lit "sign", VStr sign)].

(* ================================================================= *)
(** ** The [requests] library, as far as the dispatcher uses it *)

(** [Response.json()] changed the exception it raises on a body that is
    not JSON: before release 2.27 it let [json.JSONDecodeError] through;
    since 2.27 it raises [requests.exceptions.JSONDecodeError], which
    derives from both [InvalidJSONError] (a [RequestException]) and
    [json.JSONDecodeError]. *)
Inductive requests_release : Type :=
| Requests_before_2_27
| Requests_since_2_27.

(** The exception [response.json()] raises for a body the decoder
    refuses with message [complaint].  Since 2.27 the library catches the
    decoder's error and raises its own from inside that handler, with the
    same text. *)
Definition json_error (rel : requests_release) (complaint : str) : pyexc :=
  match rel with
  | Requests_before_2_27 => PyExc JSONDecodeError complaint [] None
  | Requests_since_2_27 =>
      PyExc RequestsJSONDecodeError complaint []
        (Some (PyExc JSONDecodeError complaint [] None))
  end.

(** The message [raise_for_status] builds; [None] when the status is
    neither 4xx nor 5xx. *)
Definition http_error_msg (r : response) : option str :=
  let code := status_code r in
  if ((400 <=? code) && (code <? 500))%Z then
    Some (str_of_int code ++ lit " Client Error: " ++ reason r
            ++ lit " for url: " ++ url r)
  else if ((500 <=? code) && (code <? 600))%Z then
    Some (str_of_int code ++ lit " Server Error: " ++ reason r
            ++ lit " for url: " ++ url r)
  else None.

(** [response.raise_for_status()]: [HTTPError] for a 4xx or 5xx status. *)
Definition raise_for_status (r : response) : M unit :=
  match http_error_msg r with
  | Some m => raise (PyExc HTTPError m [] None)
  | None => ret tt
  end.

(** [response.json()].  The library turns the decoder's
    [JSONDecodeError] into its own; the decoder's other errors pass
    through as they are. *)
Definition Response_json (rel : requests_release) (r : response) : M value :=
  match content r with
  | Json v => ret v
  | NotJson complaint => raise (json_error rel complaint)
  | OverLimit l complaint => raise (PyExc (limit_class l) complaint [] None)
  end.

(** [session.post(url, json=..., timeout=...)]: one POST goes out and
    ends the way the remote side decides. *)
Definition session_post (headers : list (str * str)) (u : str) (json : dict)
    (timeout : Z) : M response :=
  fun w =>
    let rq := Request u headers json timeout in
    let w' := World (clock w) (clock_reads w) (remote w) (posts w ++ [rq]) (stdout w) in
    match remote w (length (posts w)) rq with
    | Responded r => (Ok r, w')
    | Failed e => (Raise e, w')
    end.

(** The type name Python prints for a value. *)
Definition type_name (x : value) : str :=
  match x with
  | VNone => lit "NoneType"
  | VBool _ => lit "bool"
  | VInt _ => lit "int"
  | VFloat _ => lit "float"
  | VStr _ => lit "str"
  | VList _ => lit "list"
  | VDict _ => lit "dict"
  end.

(** [x.get(k, default)]: only a [dict] has the method. *)
Definition call_get (x : value) (k : str) (default : value) : M value :=
  match x with
  | VDict d =>
      ret (match dict_get d k with Some v => v | None => default end)
  | _ =>
      raise (PyExc AttributeError
               (lit "'" ++ type_name x ++ lit "' object has no attribute 'get'")
               [] None)
  end.

(* ================================================================= *)
(** ** client.py *)

Record XpyunClient := Build_XpyunClient {
  auth : XpyunAuth;
  debug : bool;
  session_headers : list (str * str)
}.

Definition BASE_URL : str := lit "https://open.xpyun.net/api/openapi/xprinter".
Definition TIMEOUT : Z := 30.

(** The headers of a fresh [requests.Session()]
    ([requests.utils.default_headers()], release 2.32.3, with neither
    brotli nor zstandard installed). *)
Definition default_headers : list (str * str) :=
  [(lit "User-Agent", lit "python-requests/2.32.3");
   (lit "Accept-Encoding", lit "gzip, deflate");
   (lit "Accept", lit "*/*");
   (lit "Connection", lit "keep-alive")].

(** [headers[k] = v]: header names compare without case; a name
    already present keeps its place. *)
Fixpoint header_set (headers : list (str * str)) (k v : str) : list (str * str) :=
  match headers with
  | [] => [(k, v)]
  | (k', v') :: rest =>
      if str_eqb (lower k') (lower k) then (k, v) :: rest
      else (k', v') :: header_set rest k v
  end.

(** [headers.update(d)]. *)
Definition headers_update (headers d : list (str * str)) : list (str * str) :=
  fold_left (fun hs kv => header_set hs (fst kv) (snd kv)) d headers.

(** [XpyunClient.__init__(self, user, user_key, debug=False)]. *)
Definition XpyunClient_init (u k : str) (dbg : bool) : XpyunClient :=
  Build_XpyunClient (Build_XpyunAuth u k) dbg
    (headers_update default_headers
       [(lit "Content-Type", lit "application/json;charset=UTF-8");
        (lit "User-Agent", lit "xpyun-sdk-python/0.1.0")]).

(** The literals of [client.py] and [exceptions.py], as code points. *)
Definition msg_request_data : str :=            (* '请求数据: ' *)
  [0x8bf7; 0x6c42; 0x6570; 0x636e; 0x3a; 0x20]%N.
Definition msg_response_data : str :=           (* '响应数据: ' *)
  [0x54cd; 0x5e94; 0x6570; 0x636e; 0x3a; 0x20]%N.
Definition msg_network_failed : str :=          (* '网络请求失败: ' *)
  [0x7f51; 0x7edc; 0x8bf7; 0x6c42; 0x5931; 0x8d25; 0x3a; 0x20]%N.
Definition msg_parse_failed : str :=            (* '响应解析失败: ' *)
  [0x54cd; 0x5e94; 0x89e3; 0x6790; 0x5931; 0x8d25; 0x3a; 0x20]%N.
Definition msg_unknown_error : str :=           (* '未知错误' *)
  [0x672a; 0x77e5; 0x9519; 0x8bef]%N.
Definition msg_api_error : str :=               (* 'API错误 ' *)
  [0x41; 0x50; 0x49; 0x9519; 0x8bef; 0x20]%N.

Section Dispatcher.

(** The builtin [str()] on JSON-shaped values, [json.dumps(v,
    ensure_ascii=False, indent=2)] and the installed release of
    [requests]. *)
Variable py_str : value -> str.
Variable dumps : value -> str.
Variable release : requests_release.

(** [XpyunAPIError.__init__(self, code, message, data=None)]. *)
Definition XpyunAPIError_init (code message data : value) : pyexc :=
  PyExc XpyunAPIError
    (msg_api_error ++ py_str code ++ lit ": " ++ py_str message)
    [(lit "code", code); (lit "message", message); (lit "data", data)]
    None.

(** Lines 52-57: the request data. *)
Definition prepare_request_data (self : XpyunClient) (params : option dict) : M dict :=
  request_data <- get_auth_params (auth self) ;;
  ms <- time_millis ;;
  let request_data := dict_set request_data (lit "requestTime") (VInt ms) in
  ret (match params with
       | Some p => if truthy params then dict_update request_data p else request_data
       | None => request_data
       end).

(** Lines 60-85: the body of the [try], on a console that takes every
    line. *)
Definition attempt (self : XpyunClient) (method : str) (request_data : dict) : M value :=
  (if debug self then print (msg_request_data ++ dumps (VDict request_data))
   else ret tt) ;;;
  response <- session_post (session_headers self)
                (BASE_URL ++ lit "/" ++ method) request_data TIMEOUT ;;
  raise_for_status response ;;;
  result <- Response_json release response ;;
  (if debug self then print (msg_response_data ++ dumps result) else ret tt) ;;;
  code <- call_get result (lit "code") VNone ;;
  if ne_zero code then
    code <- call_get result (lit "code") VNone ;;
    message <- call_get result (lit "msg") (VStr msg_unknown_error) ;;
    data <- call_get result (lit "data") VNone ;;
    raise (XpyunAPIError_init code message data)
  else ret result.

(** Lines 87-94: the [except] clauses, in source order. *)
Definition handlers : list (clause value) :=
  [ (RequestException,
     fun e => raise_in_handler e XpyunNetworkError (msg_network_failed ++ exc_str e));
    (JSONDecodeError,
     fun e => raise_in_handler e XpyunError (msg_parse_failed ++ exc_str e));
    (XpyunAPIError,
     fun e => raise e);
    (Exception,
     fun e => raise_in_handler e XpyunError
                (msg_unknown_error ++ lit ": " ++ exc_str e)) ].

(** [XpyunClient._make_request(self, method, params=None)], on a
    console that takes every line. *)
Definition _make_request (self : XpyunClient) (method : str)
    (params : option dict) : M value :=
  request_data <- prepare_request_data self params ;;
  try_except (attempt self method request_data) handlers.

(** The console the process writes to. *)
Variable out : console.

(** Lines 60-85 on console [out]: both debug lines are printed inside
    the [try]. *)
Definition attempt_on (self : XpyunClient) (method : str) (request_data : dict) : M value :=
  (if debug self then print_on out (msg_request_data ++ dumps (VDict request_data))
   else ret tt) ;;;
  response <- session_post (session_headers self)
                (BASE_URL ++ lit "/" ++ method) request_data TIMEOUT ;;
  raise_for_status response ;;;
  result <- Response_json release response ;;
  (if debug self then print_on out (msg_response_data ++ dumps result) else ret tt) ;;;
  code <- call_get result (lit "code") VNone ;;
  if ne_zero code then
    code <- call_get result (lit "code") VNone ;;
    message <- call_get result (lit "msg") (VStr msg_unknown_error) ;;
    data <- call_get result (lit "data") VNone ;;
    raise (XpyunAPIError_init code message data)
  else ret result.

(** [XpyunClient._make_request(self, method, params=None)] on console
    [out]. *)
Definition _make_request_on (self : XpyunClient) (method : str)
    (params : option dict) : M value :=
  request_data <- prepare_request_data self params ;;
  try_except (attempt_on self method request_data) handlers.

End Dispatcher.

(** The outcome of the one POST that a call of [_make_request] issues
    from world [w]; [None] when the call fails before reaching the
    transport.  On a console that refuses the request line of a client
    with debug on, [_make_request_on] does not get as far as the POST. *)
Definition answer (self : XpyunClient) (method : str) (params : option dict)
    (w : world) : option post_outcome :=
  match prepare_request_data self params w with
  | (Ok rd, w1) =>
      Some (remote w1 (length (posts w1))
              (Request (BASE_URL ++ lit "/" ++ method) (session_headers self) rd TIMEOUT))
  | (Raise _, _) => None
  end.

(** Fixtures for the examples: a clock stopped at 2023-11-14T22:13:20Z,
    a remote side that always ends the POST the same way, and renderers
    that are exact on [None], [int] and [str] only. *)
Definition stopped_clock : nat -> reading :=
  fun _ => Reading 1700000000 1700000000123.

Definition world_with (o : post_outcome) : world :=
  World stopped_clock 0 (fun _ _ => o) [] [].

Definition scalar_str (v : value) : str :=
  match v with
  | VNone => lit "None"
  | VInt z => str_of_int z
  | VStr s => s
  | _ => lit "..."
  end.

Definition shop : XpyunClient :=
  XpyunClient_init (lit "1911342262@qq.com") (lit "eebc89e280ba47c5a12d6dc750348811") false.

Definition ok_response (v : value) : response :=
  Response 200 (lit "OK") (BASE_URL ++ lit "/print") (Json v).

(** The signature of the worked example of the specification. *)
Definition golden_sign : str := lit "5a7686511424b59153c9e05c1e9755c843dfcff2".

(** The timestamp text a call of [get_auth_params] reads in world [w],
    and the millisecond reading [_make_request] takes right after it. *)
Definition timestamp_at (w : world) : str :=
  str_of_int (seconds (clock w (clock_reads w))).

Definition request_time_at (w : world) : Z :=
  millis (clock w (S (clock_reads w))).

(** The four fields the dispatcher generates by itself. *)
Definition generated (self : XpyunClient) (w : world) (sign : str) : dict :=
  [(lit "user", VStr (user (auth self)));
   (lit "timestamp", VStr (timestamp_at w));
   (lit "sign", VStr sign);
   (lit "requestTime", VInt (request_time_at w))].


(** Strings [str.encode('utf-8')] accepts. *)
Definition encodable (s : str) : bool :=
  match encode_utf8 s with
  | Some _ => true
  | None => false
  end.

Definition is_ascii (s : str) : bool := forallb (fun c => (c <? 128)%N) s.

(** The world after one reading of the clock. *)
Definition tick (w : world) : world :=
  World (clock w) (S (clock_reads w)) (remote w) (posts w) (stdout w).

(** The exception [encode] raises. *)
Definition encode_error : pyexc :=
  PyExc UnicodeEncodeError (lit "surrogates not allowed") [] None.

(** The request data [_make_request] builds from the generated fields
    and the caller's params. *)
Definition merged (g : dict) (params : option dict) : dict :=
  match params with
  | Some p => if truthy params then dict_update g p else g
  | None => g
  end.

(** The request a call issues for request data [rd]. *)
Definition request_for (self : XpyunClient) (method : str) (rd : dict) : request :=
  Request (BASE_URL ++ lit "/" ++ method) (session_headers self) rd TIMEOUT.

(** A world whose remote side answers 200 with JSON body [v]. *)
Definition answering (v : value) : world :=
  world_with (Responded (ok_response v)).


(** The server's answer of the specification's error example. *)
Definition printer_not_found : dict :=
  [(lit "code", VInt 3); (lit "msg", VStr (lit "printer not found"))].

(** A response whose body is an HTML error page, not JSON. *)
Definition html_page (status : Z) (why : str) : response :=
  Response status why (BASE_URL ++ lit "/print")
    (NotJson (lit "Expecting value: line 1 column 1 (char 0)")).

(** The transport failures the specification names, as [requests]
    raises them: refused connection and failed DNS lookup
    ([ConnectionError]), timeouts, TLS failure ([SSLError]). *)
Definition transport_failures : list exc_class :=
  [ConnectionError; ConnectTimeout; ReadTimeout; Timeout; SSLError; ProxyError].

(** The error kinds the dispatcher raises by itself. *)
Definition dispatcher_errors : list exc_class :=
  [XpyunAPIError; XpyunNetworkError; XpyunError].

(** The two lines a debug client prints, before and after the POST. *)
Definition request_line (dumps : value -> str) (rd : dict) : str :=
  msg_request_data ++ dumps (VDict rd).

Definition response_line (dumps : value -> str) (result : value) : str :=
  msg_response_data ++ dumps result.

(** Console [out] takes the line. *)
Definition taken (out : console) (line : str) : bool :=
  match out line with
  | None => true
  | Some _ => false
  end.

(** Console [out] takes everything that a call answered with [result]
    prints: nothing when debug is off, the request line and the response
    line when it is on. *)
Definition debug_lines_taken (out : console) (dumps : value -> str)
    (self : XpyunClient) (params : option dict) (w : world) (result : value) : bool :=
  negb (debug self)
  || match prepare_request_data self params w with
     | (Ok rd, _) =>
         taken out (request_line dumps rd) && taken out (response_line dumps result)
     | (Raise _, _) => true
     end.

(** A console whose encoding is UTF-8: it refuses a line that holds a
    lone surrogate.  The message is abbreviated to its reason. *)
Definition utf8_console : console :=
  fun line => if encodable line then None else Some encode_error.

(** A renderer for the examples that keeps the characters of strings as
    they are, as [json.dumps(..., ensure_ascii=False)] does; objects are
    laid out on one line and only their scalar fields are shown. *)
Definition shown (v : value) : str :=
  match v with
  | VNone => lit "null"
  | VBool true => lit "true"
  | VBool false => lit "false"
  | VInt z => str_of_int z
  | VStr s => [0x22]%N ++ s ++ [0x22]%N
  | _ => lit "..."
  end.

Fixpoint join (sep : str) (parts : list str) : str :=
  match parts with
  | [] => []
  | p :: rest =>
      match rest with
      | [] => p
      | _ :: _ => p ++ sep ++ join sep rest
      end
  end.

Definition flat_dumps (v : value) : str :=
  match v with
  | VDict d =>
      lit "{"
        ++ join (lit ", ")
             (map (fun kv => [0x22]%N ++ fst kv ++ [0x22; 0x3a; 0x20]%N
                               ++ shown (snd kv)) d)
        ++ lit "}"
  | _ => shown v
  end.

(** Answers whose text holds a lone surrogate (the JSON escape
    [\ud83d] decodes to one): an error, a success and an object
    without [code]. *)
Definition garbled_error : dict :=
  [(lit "code", VInt 3); (lit "msg", VStr [0xD83D]%N)].

Definition garbled_success : dict :=
  [(lit "code", VInt 0); (lit "data", VStr [0xD83D]%N)].

Definition garbled_plain : dict :=
  [(lit "msg", VStr [0xD83D]%N)].

(** A response with an error status whose body is the JSON value [v]. *)
Definition server_error (v : value) : response :=
  Response 500 (lit "Internal Server Error") (BASE_URL ++ lit "/print") (Json v).

(** A response whose body holds an integer of 5000 digits, and what
    the decoder says about it (abbreviated). *)
Definition digits_complaint : str :=
  lit "Exceeds the limit (4300 digits) for integer string conversion".

Definition too_many_digits : response :=
  Response 200 (lit "OK") (BASE_URL ++ lit "/print")
    (OverLimit DigitLimit digits_complaint).

(** The same client with debugging switched on or off. *)
Definition with_debug (self : XpyunClient) (flag : bool) : XpyunClient :=
  Build_XpyunClient (auth self) flag (session_headers self).

(* ================================================================= *)
(** ** Proof automation *)

(** Runs the body of the [try] up to the outcome [H] of the POST. *)
Ltac run_attempt H :=
  unfold attempt, bind, session_post, request_for in *;
  destruct (debug _); cbn in *; rewrite H; cbn.

(* ================================================================= *)
(** ** Truth values, comparisons and attribute access used by the facades *)

(** [bool(v)] for a JSON-shaped value ([if v:], [not v]). *)
Definition py_truthy (v : value) : bool :=
  match v with
  | VNone => false
  | VBool b => b
  | VInt z => negb (Z.eqb z 0)
  | VFloat f => negb (PrimFloat.eqb f 0%float)
  | VStr s => match s with [] => false | _ :: _ => true end
  | VList l => match l with [] => false | _ :: _ => true end
  | VDict d => match d with [] => false | _ :: _ => true end
  end.

(** [bool(s)] for a [str] and for a list. *)
Definition str_truthy (s : str) : bool :=
  match s with [] => false | _ :: _ => true end.

Definition list_truthy {A} (l : list A) : bool :=
  match l with [] => false | _ :: _ => true end.

(** [d.get(k)]: [None] when the key is absent. *)
Definition get_or_none (d : dict) (k : str) : value :=
  match dict_get d k with Some v => v | None => VNone end.

(** [v == s] for a [str] literal [s]. *)
Definition eq_str (v : value) (s : str) : bool :=
  match v with
  | VStr t => str_eqb t s
  | _ => false
  end.

(** [v is not None]. *)
Definition is_not_none (v : value) : bool :=
  match v with VNone => false | _ => true end.

(** [x.items()]: only a [dict] has the method. *)
Definition call_items (x : value) : M dict :=
  match x with
  | VDict d => ret d
  | _ =>
      raise (PyExc AttributeError
               (lit "'" ++ type_name x ++ lit "' object has no attribute 'items'")
               [] None)
  end.

(** [raise XpyunError(text)], outside any handler. *)
Definition raise_error {A} (text : str) : M A :=
  raise (PyExc XpyunError text [] None).

(** The message literals of the facades, as code points. *)
Definition msg_printers_empty : str :=          (* '打印机列表不能为空' *)
  [0x6253; 0x5370; 0x673a; 0x5217; 0x8868; 0x4e0d; 0x80fd; 0x4e3a; 0x7a7a]%N.
Definition msg_printer_fields : str :=          (* '每个打印机必须包含sn和name字段' *)
  [0x6bcf; 0x4e2a; 0x6253; 0x5370; 0x673a; 0x5fc5; 0x987b; 0x5305; 0x542b; 0x73; 0x6e; 0x548c; 0x6e; 0x61; 0x6d; 0x65; 0x5b57; 0x6bb5]%N.
Definition msg_sn_list_empty : str :=          (* '打印机编号列表不能为空' *)
  [0x6253; 0x5370; 0x673a; 0x7f16; 0x53f7; 0x5217; 0x8868; 0x4e0d; 0x80fd; 0x4e3a; 0x7a7a]%N.
Definition msg_sn_empty : str :=          (* '打印机编号不能为空' *)
  [0x6253; 0x5370; 0x673a; 0x7f16; 0x53f7; 0x4e0d; 0x80fd; 0x4e3a; 0x7a7a]%N.
Definition msg_sn_and_content_empty : str :=          (* '打印机编号和内容不能为空' *)
  [0x6253; 0x5370; 0x673a; 0x7f16; 0x53f7; 0x548c; 0x5185; 0x5bb9; 0x4e0d; 0x80fd; 0x4e3a; 0x7a7a]%N.
Definition msg_copies_range : str :=          (* '打印份数必须在1-10之间' *)
  [0x6253; 0x5370; 0x4efd; 0x6570; 0x5fc5; 0x987b; 0x5728; 0x31; 0x2d; 0x31; 0x30; 0x4e4b; 0x95f4]%N.
Definition msg_label_size : str :=          (* '标签高度和宽度必须是正数' *)
  [0x6807; 0x7b7e; 0x9ad8; 0x5ea6; 0x548c; 0x5bbd; 0x5ea6; 0x5fc5; 0x987b; 0x662f; 0x6b63; 0x6570]%N.
Definition msg_quantity_range : str :=          (* '打印数量必须在1-100之间' *)
  [0x6253; 0x5370; 0x6570; 0x91cf; 0x5fc5; 0x987b; 0x5728; 0x31; 0x2d; 0x31; 0x30; 0x30; 0x4e4b; 0x95f4]%N.
Definition msg_voice_type_unsupported : str :=          (* '不支持的语音类型: ' *)
  [0x4e0d; 0x652f; 0x6301; 0x7684; 0x8bed; 0x97f3; 0x7c7b; 0x578b; 0x3a; 0x20]%N.
Definition msg_sn_and_voice_empty : str :=          (* '打印机编号和语音类型不能为空' *)
  [0x6253; 0x5370; 0x673a; 0x7f16; 0x53f7; 0x548c; 0x8bed; 0x97f3; 0x7c7b; 0x578b; 0x4e0d; 0x80fd; 0x4e3a; 0x7a7a]%N.
Definition msg_pay_type_unsupported : str :=          (* '不支持的支付类型: ' *)
  [0x4e0d; 0x652f; 0x6301; 0x7684; 0x652f; 0x4ed8; 0x7c7b; 0x578b; 0x3a; 0x20]%N.
Definition msg_voice_failed : str :=          (* '语音播报失败: ' *)
  [0x8bed; 0x97f3; 0x64ad; 0x62a5; 0x5931; 0x8d25; 0x3a; 0x20]%N.
Definition msg_order_id_empty : str :=          (* '订单ID不能为空' *)
  [0x8ba2; 0x5355; 0x49; 0x44; 0x4e0d; 0x80fd; 0x4e3a; 0x7a7a]%N.

(* ================================================================= *)
(** ** client.py: the API methods of [XpyunClient] *)

(** In this and the following modules arguments are taken at their
    annotated types: [str] for texts, [int] ([Z]) for numbers, [bool] for
    switches, [option] for an argument whose default is [None], and
    [int or str] as a two-case type; keyword defaults are passed by the
    caller.  Methods that format floats, read [datetime] or sleep are not
    embedded. *)

Module Client.
Section Methods.

Variable py_str : value -> str.
Variable dumps : value -> str.
Variable release : requests_release.

(** [XpyunClient.add_printers(self, printers)]. *)
Definition add_printers (self : XpyunClient) (printers : list value) : M value :=
  _make_request py_str dumps release self (lit "addPrinters")
    (Some [(lit "items", VList printers)]).

(** [XpyunClient.print_ticket(self, sn, content, times=1, code_u="",
    mode=0, voice=0)]. *)
Definition print_ticket (self : XpyunClient) (sn content : str) (times : Z)
    (code_u : str) (mode voice : Z) : M value :=
  let params := [(lit "sn", VStr sn);
                 (lit "content", VStr content);
                 (lit "times", VInt times);
                 (lit "mode", VInt mode);
                 (lit "voice", VInt voice)] in
  let params := if str_truthy code_u
                then dict_set params (lit "code_u") (VStr code_u)
                else params in
  _make_request py_str dumps release self (lit "print") (Some params).

(** [XpyunClient.print_label(self, sn, content, height, quantity=1,
    width=30, top=0, left=0, code_u="")]. *)
Definition print_label (self : XpyunClient) (sn content : str)
    (height quantity width top left : Z) (code_u : str) : M value :=
  let params := [(lit "sn", VStr sn);
                 (lit "content", VStr content);
                 (lit "height", VInt height);
                 (lit "quantity", VInt quantity);
                 (lit "width", VInt width);
                 (lit "top", VInt top);
                 (lit "left", VInt left)] in
  let params := if str_truthy code_u
                then dict_set params (lit "code_u") (VStr code_u)
                else params in
  _make_request py_str dumps release self (lit "printLabel") (Some params).

(** [XpyunClient.del_printers(self, sn_list)]. *)
Definition del_printers (self : XpyunClient) (sn_list : list value) : M value :=
  _make_request py_str dumps release self (lit "delPrinters")
    (Some [(lit "snlist", VList sn_list)]).

(** [XpyunClient.upd_printer(self, sn, name)]. *)
Definition upd_printer (self : XpyunClient) (sn name : str) : M value :=
  _make_request py_str dumps release self (lit "updPrinter")
    (Some [(lit "sn", VStr sn); (lit "name", VStr name)]).

(** [XpyunClient.del_printer_queue(self, sn)]. *)
Definition del_printer_queue (self : XpyunClient) (sn : str) : M value :=
  _make_request py_str dumps release self (lit "delPrinterQueue")
    (Some [(lit "sn", VStr sn)]).

(** [XpyunClient.query_order_state(self, order_id)]. *)
Definition query_order_state (self : XpyunClient) (order_id : str) : M value :=
  _make_request py_str dumps release self (lit "queryOrderState")
    (Some [(lit "orderId", VStr order_id)]).

(** [XpyunClient.query_order_statistics(self, sn, start_time, end_time)]. *)
Definition query_order_statistics (self : XpyunClient)
    (sn start_time end_time : str) : M value :=
  _make_request py_str dumps release self (lit "queryOrderStatis")
    (Some [(lit "sn", VStr sn);
           (lit "dateFrom", VStr start_time);
           (lit "dateTo", VStr end_time)]).

(** [XpyunClient.query_printer_status(self, sn)]. *)
Definition query_printer_status (self : XpyunClient) (sn : str) : M value :=
  _make_request py_str dumps release self (lit "queryPrinterStatus")
    (Some [(lit "sn", VStr sn)]).

(** [XpyunClient.query_printers_status(self, sn_list)]. *)
Definition query_printers_status (self : XpyunClient) (sn_list : list value) : M value :=
  _make_request py_str dumps release self (lit "queryPrintersStatus")
    (Some [(lit "snlist", VList sn_list)]).

(** [XpyunClient.set_voice_type(self, sn, voice_type, voice=None)]. *)
Definition set_voice_type (self : XpyunClient) (sn : str) (voice_type : Z)
    (voice : option Z) : M value :=
  let params := [(lit "sn", VStr sn); (lit "voiceType", VInt voice_type)] in
  let params := match voice with
                | Some v => dict_set params (lit "voice") (VInt v)
                | None => params
                end in
  _make_request py_str dumps release self (lit "setVoiceType") (Some params).

(** [XpyunClient.play_voice(self, sn, voice_type, pay_type=None)]. *)
Definition play_voice (self : XpyunClient) (sn voice_type : str)
    (pay_type : option Z) : M value :=
  let params := [(lit "sn", VStr sn); (lit "voiceType", VStr voice_type)] in
  let params := match pay_type with
                | Some p => dict_set params (lit "payType") (VInt p)
                | None => params
                end in
  _make_request py_str dumps release self (lit "playVoice") (Some params).

(** One call of an API method, with its arguments. *)
Inductive call : Type :=
| AddPrinters (printers : list value)
| PrintTicket (sn content : str) (times : Z) (code_u : str) (mode voice : Z)
| PrintLabel (sn content : str) (height quantity width top left : Z) (code_u : str)
| DelPrinters (sn_list : list value)
| UpdPrinter (sn name : str)
| DelPrinterQueue (sn : str)
| QueryOrderState (order_id : str)
| QueryOrderStatistics (sn start_time end_time : str)
| QueryPrinterStatus (sn : str)
| QueryPrintersStatus (sn_list : list value)
| SetVoiceType (sn : str) (voice_type : Z) (voice : option Z)
| PlayVoice (sn voice_type : str) (pay_type : option Z).

Definition invoke (self : XpyunClient) (c : call) : M value :=
  match c with
  | AddPrinters printers => add_printers self printers
  | PrintTicket sn content times code_u mode voice =>
      print_ticket self sn content times code_u mode voice
  | PrintLabel sn content height quantity width top_margin left_margin code_u =>
      print_label self sn content height quantity width top_margin left_margin code_u
  | DelPrinters sn_list => del_printers self sn_list
  | UpdPrinter sn name => upd_printer self sn name
  | DelPrinterQueue sn => del_printer_queue self sn
  | QueryOrderState order_id => query_order_state self order_id
  | QueryOrderStatistics sn start_time end_time =>
      query_order_statistics self sn start_time end_time
  | QueryPrinterStatus sn => query_printer_status self sn
  | QueryPrintersStatus sn_list => query_printers_status self sn_list
  | SetVoiceType sn voice_type voice => set_voice_type self sn voice_type voice
  | PlayVoice sn voice_type pay_type => play_voice self sn voice_type pay_type
  end.

End Methods.


End Client.

(* ================================================================= *)
(** ** printer_manager.py *)

Module PrinterManager.

Record t := Build { client : XpyunClient }.

Section Methods.

Variable py_str : value -> str.
Variable dumps : value -> str.
Variable release : requests_release.


(** Lines 64-66: the loop that checks every printer. *)
Fixpoint check_printers (printers : list dict) : M unit :=
  match printers with
  | [] => ret tt
  | printer :: rest =>
      if negb (py_truthy (get_or_none printer (lit "sn")))
         || negb (py_truthy (get_or_none printer (lit "name")))
      then raise_error msg_printer_fields
      else check_printers rest
  end.

(** [PrinterManager.add_printers(self, printers)]. *)
Definition add_printers (self : t) (printers : list dict) : M value :=
  if negb (list_truthy printers) then raise_error msg_printers_empty
  else
    check_printers printers ;;;
    Client.add_printers py_str dumps release (client self) (map VDict printers).





(** [PrinterManager.get_printer_status(self, sn)]. *)
Definition get_printer_status (self : t) (sn : str) : M value :=
  if negb (str_truthy sn) then raise_error msg_sn_empty
  else Client.query_printer_status py_str dumps release (client self) sn.

(** [PrinterManager.get_printers_status(self, sn_list)]. *)
Definition get_printers_status (self : t) (sn_list : list str) : M value :=
  if negb (list_truthy sn_list) then raise_error msg_sn_list_empty
  else Client.query_printers_status py_str dumps release (client self)
         (map VStr sn_list).

(** [PrinterManager._is_printer_online(self, status_data)]. *)
Definition _is_printer_online (status_data : value) : M value :=
  data <- call_get status_data (lit "data") VNone ;;
  if negb (py_truthy data) then ret (VBool false)
  else call_get data (lit "connected") (VBool false).

(** [PrinterManager._get_queue_status(self, status_data)]. *)
Definition _get_queue_status (status_data : value) : M value :=
  data <- call_get status_data (lit "data") VNone ;;
  if negb (py_truthy data) then ret (VStr (lit "unknown"))
  else call_get data (lit "queue_status") (VStr (lit "normal")).

(** The record [get_printer_info] answers with when the query fails. *)
Definition unknown_info (sn : str) : value :=
  VDict [(lit "sn", VStr sn);
         (lit "status", VStr (lit "unknown"));
         (lit "is_online", VBool false);
         (lit "queue_status", VStr (lit "unknown"))].

(** [PrinterManager.get_printer_info(self, sn)]. *)
Definition get_printer_info (self : t) (sn : str) : M value :=
  try_except
    (status_result <- get_printer_status self sn ;;
     status <- call_get status_result (lit "data") VNone ;;
     is_online <- _is_printer_online status_result ;;
     queue_status <- _get_queue_status status_result ;;
     ret (VDict [(lit "sn", VStr sn);
                 (lit "status", status);
                 (lit "is_online", is_online);
                 (lit "queue_status", queue_status)]))
    [ (XpyunError, fun _ => ret (unknown_info sn)) ].

End Methods.
End PrinterManager.

(* ================================================================= *)
(** ** print_service.py: the validated print calls *)

Module PrintService.

Record t := Build { client : XpyunClient }.

Section Methods.

Variable py_str : value -> str.
Variable dumps : value -> str.
Variable release : requests_release.

(** [PrintService.print_receipt(self, sn, content, copies=1, code_u="",
    auto_print=True, voice_enabled=False)]. *)
Definition print_receipt (self : t) (sn content : str) (copies : Z)
    (code_u : str) (auto_print voice_enabled : bool) : M value :=
  if negb (str_truthy sn) || negb (str_truthy content)
  then raise_error msg_sn_and_content_empty
  else if ((copies <? 1) || (copies >? 10))%Z
  then raise_error msg_copies_range
  else
    let mode := if auto_print then 0%Z else 1%Z in
    let voice := if voice_enabled then 1%Z else 0%Z in
    Client.print_ticket py_str dumps release (client self)
      sn content copies code_u mode voice.

(** [PrintService.print_label(self, sn, content, height, width=30,
    quantity=1, top_margin=0, left_margin=0, code_u="")].  The client is
    called with keywords: [quantity] and [width] change places. *)
Definition print_label (self : t) (sn content : str)
    (height width quantity top_margin left_margin : Z) (code_u : str) : M value :=
  if negb (str_truthy sn) || negb (str_truthy content)
  then raise_error msg_sn_and_content_empty
  else if ((height <=? 0) || (width <=? 0))%Z
  then raise_error msg_label_size
  else if ((quantity <? 1) || (quantity >? 100))%Z
  then raise_error msg_quantity_range
  else
    Client.print_label py_str dumps release (client self)
      sn content height quantity width top_margin left_margin code_u.

End Methods.
End PrintService.

(* ================================================================= *)
(** ** voice_service.py *)

Module VoiceService.

Record t := Build { client : XpyunClient }.

(** An argument annotated [int or str]. *)
Inductive int_or_str : Type :=
| IsInt (z : Z)
| IsStr (s : str).

Definition VOICE_TYPES : list (str * Z) :=
  [(lit "MANDARIN_FEMALE", 0%Z);
   (lit "MANDARIN_MALE", 1%Z);
   (lit "CANTONESE_FEMALE", 2%Z);
   (lit "ENGLISH_FEMALE", 3%Z);
   (lit "CANTONESE_MALE", 4%Z);
   (lit "ENGLISH_MALE", 5%Z)].

Definition PAY_TYPES : list (str * Z) :=
  [(lit "CASH", 1%Z);
   (lit "CARD", 2%Z);
   (lit "QR_CODE", 3%Z);
   (lit "OTHER", 0%Z)].

(** [table.get(k)] on one of the two class tables. *)
Fixpoint table_get (table : list (str * Z)) (k : str) : option Z :=
  match table with
  | [] => None
  | (k', n) :: rest => if str_eqb k k' then Some n else table_get rest k
  end.

(** The text an [int or str] argument gets inside an f-string. *)
Definition text_of (x : int_or_str) : str :=
  match x with
  | IsInt z => str_of_int z
  | IsStr s => s
  end.

Section Methods.

Variable py_str : value -> str.
Variable dumps : value -> str.
Variable release : requests_release.

(** The builtin [str.upper()]. *)
Variable upper : str -> str.

(** The console the process writes to. *)
Variable out : console.

(** [VoiceService.set_voice_type(self, sn, voice_type, voice_enabled=True)]. *)
Definition set_voice_type (self : t) (sn : str) (voice_type : int_or_str)
    (voice_enabled : bool) : M value :=
  if negb (str_truthy sn) then raise_error msg_sn_empty
  else
    voice_type_int <-
      match voice_type with
      | IsStr s =>
          match table_get VOICE_TYPES (upper s) with
          | Some n => ret n
          | None => raise_error (msg_voice_type_unsupported ++ s)
          end
      | IsInt z => ret z
      end ;;
    Client.set_voice_type py_str dumps release (client self) sn voice_type_int
      (Some (if voice_enabled then 1%Z else 0%Z)).

(** [VoiceService.play_voice(self, sn, voice_type, pay_type=None)]. *)
Definition play_voice (self : t) (sn voice_type : str)
    (pay_type : option int_or_str) : M value :=
  if negb (str_truthy sn) || negb (str_truthy voice_type)
  then raise_error msg_sn_and_voice_empty
  else
    pay_type_int <-
      match pay_type with
      | Some (IsStr s) =>
          match table_get PAY_TYPES (upper s) with
          | Some n => ret (Some n)
          | None => raise_error (msg_pay_type_unsupported ++ s)
          end
      | Some (IsInt z) => ret (Some z)
      | None => ret None
      end ;;
    Client.play_voice py_str dumps release (client self) sn voice_type pay_type_int.

(** [VoiceService._format_amount_voice(self, amount)]. *)
Definition _format_amount_voice (amount : float) : str :=
  let amount_str := py_str (VFloat amount) in
  amount_str.

(** [VoiceService.play_amount_voice(self, sn, amount, pay_type="CASH")]. *)
Definition play_amount_voice (self : t) (sn : str) (amount : float)
    (pay_type : str) : M value :=
  let amount_str := _format_amount_voice amount in
  let voice_type := lit "AMOUNT_" ++ upper pay_type in
  play_voice self sn voice_type (Some (IsStr pay_type)).

(** [VoiceService.play_welcome_message(self, sn, voice_type="MANDARIN_FEMALE")]. *)
Definition play_welcome_message (self : t) (sn voice_type : str) : M value :=
  play_voice self sn (lit "WELCOME_" ++ voice_type) None.

(** [VoiceService.print_and_voice(self, sn, content, amount=None,
    voice_enabled=True, pay_type="CASH")]. *)
Definition print_and_voice (self : t) (sn content : str) (amount : option float)
    (voice_enabled : bool) (pay_type : str) : M value :=
  let print_service := PrintService.Build (client self) in
  print_result <- PrintService.print_receipt py_str dumps release print_service
                    sn content 1 [] true voice_enabled ;;
  (if voice_enabled then
     match amount with
     | Some a =>
         try_except (play_amount_voice self sn a pay_type ;;; ret tt)
           [ (Exception,
              fun e => print_in_handler out e (msg_voice_failed ++ exc_str e)) ]
     | None => ret tt
     end
   else ret tt) ;;;
  ret print_result.

(** [VoiceService.disable_all_voices(self, sn)]. *)
Definition disable_all_voices (self : t) (sn : str) : M value :=
  set_voice_type self sn (IsInt 0) false.

(** [VoiceService.test_voice(self, sn, voice_type="MANDARIN_FEMALE")]. *)
Definition test_voice (self : t) (sn voice_type : str) : M value :=
  play_voice self sn (lit "TEST_" ++ voice_type) None.

(** [VoiceService.get_voice_settings(self, sn)]. *)
Definition get_voice_settings (self : t) (sn : str) : M value :=
  status <- Client.query_printer_status py_str dumps release (client self) sn ;;
  data <- call_get status (lit "data") (VDict []) ;;
  is_voice_enabled <- call_get data (lit "voiceEnabled") (VBool false) ;;
  current_voice_type <- call_get data (lit "voiceType") (VInt 0) ;;
  voice_quality <- call_get data (lit "voiceQuality") (VStr (lit "normal")) ;;
  last_voice_update <- call_get data (lit "lastVoiceUpdate") VNone ;;
  ret (VDict [(lit "is_voice_enabled", is_voice_enabled);
              (lit "current_voice_type", current_voice_type);
              (lit "voice_quality", voice_quality);
              (lit "last_voice_update", last_voice_update);
              (lit "supported_voices", VList (map (fun kv => VStr (fst kv)) VOICE_TYPES))]).

(** [VoiceService.validate_voice_support(self, sn)]. *)
Definition validate_voice_support (self : t) (sn : str) : M bool :=
  settings <- get_voice_settings self sn ;;
  voice_quality <- call_get settings (lit "voice_quality") VNone ;;
  ret (is_not_none voice_quality).

End Methods.
End VoiceService.

(* ================================================================= *)
(** ** query_service.py: status queries and the parsers of their answers *)

Module QueryService.

Record t := Build { client : XpyunClient }.

(** [QueryService._parse_order_status(self, api_response)]. *)
Definition _parse_order_status (api_response : value) : M value :=
  data <- call_get api_response (lit "data") (VDict []) ;;
  order_id <- call_get data (lit "orderId") VNone ;;
  status <- call_get data (lit "state") VNone ;;
  print_status <- call_get data (lit "printStatus") VNone ;;
  print_time <- call_get data (lit "printTime") VNone ;;
  printer_sn <- call_get data (lit "sn") VNone ;;
  state1 <- call_get data (lit "state") VNone ;;
  state2 <- call_get data (lit "state") VNone ;;
  ret (VDict [(lit "order_id", order_id);
              (lit "status", status);
              (lit "print_status", print_status);
              (lit "print_time", print_time);
              (lit "printer_sn", printer_sn);
              (lit "is_completed", VBool (eq_str state1 (lit "completed")));
              (lit "is_failed", VBool (eq_str state2 (lit "failed")));
              (lit "raw_data", data)]).

(** [QueryService._parse_printer_status(self, api_response)]. *)
Definition _parse_printer_status (api_response : value) : M value :=
  data <- call_get api_response (lit "data") (VDict []) ;;
  sn <- call_get data (lit "sn") VNone ;;
  is_online <- call_get data (lit "connected") (VBool false) ;;
  has_paper <- call_get data (lit "hasPaper") (VBool false) ;;
  temperature <- call_get data (lit "temperature") VNone ;;
  voltage <- call_get data (lit "voltage") VNone ;;
  queue_length <- call_get data (lit "queueLength") (VInt 0) ;;
  last_update <- call_get data (lit "lastUpdateTime") VNone ;;
  ret (VDict [(lit "sn", sn);
              (lit "is_online", is_online);
              (lit "has_paper", has_paper);
              (lit "temperature", temperature);
              (lit "voltage", voltage);
              (lit "queue_length", queue_length);
              (lit "last_update", last_update);
              (lit "raw_data", data)]).

(** Lines 268-275: one record per entry of [data], in order. *)
Fixpoint collect_printers (items : dict) : M (list dict) :=
  match items with
  | [] => ret []
  | (sn, status) :: rest =>
      is_online <- call_get status (lit "connected") (VBool false) ;;
      has_paper <- call_get status (lit "hasPaper") (VBool false) ;;
      queue_length <- call_get status (lit "queueLength") (VInt 0) ;;
      printers <- collect_printers rest ;;
      ret ([(lit "sn", VStr sn);
            (lit "is_online", is_online);
            (lit "has_paper", has_paper);
            (lit "queue_length", queue_length);
            (lit "raw_data", status)] :: printers)
  end.

(** [sum(1 for p in printers if ...)] over [p["is_online"]], a key every
    collected record has. *)
Definition count_online (keep : bool -> bool) (printers : list dict) : Z :=
  Z.of_nat (length (filter (fun p => keep (py_truthy (get_or_none p (lit "is_online"))))
                           printers)).

(** [QueryService._parse_printers_status(self, api_response)]. *)
Definition _parse_printers_status (api_response : value) : M value :=
  data <- call_get api_response (lit "data") (VDict []) ;;
  items <- call_items data ;;
  printers <- collect_printers items ;;
  ret (VDict [(lit "total", VInt (Z.of_nat (length printers)));
              (lit "online_count", VInt (count_online (fun b => b) printers));
              (lit "offline_count", VInt (count_online negb printers));
              (lit "printers", VList (map VDict printers))]).


Section Methods.

Variable py_str : value -> str.
Variable dumps : value -> str.
Variable release : requests_release.

(** [QueryService.get_order_status(self, order_id)]. *)
Definition get_order_status (self : t) (order_id : str) : M value :=
  if negb (str_truthy order_id) then raise_error msg_order_id_empty
  else
    result <- Client.query_order_state py_str dumps release (client self) order_id ;;
    _parse_order_status result.

(** [QueryService.get_printer_status(self, sn)]. *)
Definition get_printer_status (self : t) (sn : str) : M value :=
  if negb (str_truthy sn) then raise_error msg_sn_empty
  else
    result <- Client.query_printer_status py_str dumps release (client self) sn ;;
    _parse_printer_status result.

(** [QueryService.get_printers_status(self, sn_list)]. *)
Definition get_printers_status (self : t) (sn_list : list str) : M value :=
  if negb (list_truthy sn_list) then raise_error msg_sn_list_empty
  else
    result <- Client.query_printers_status py_str dumps release (client self)
                (map VStr sn_list) ;;
    _parse_printers_status result.

(** [QueryService.is_printer_online(self, sn)]. *)
Definition is_printer_online (self : t) (sn : str) : M value :=
  status <- get_printer_status self sn ;;
  call_get status (lit "is_online") (VBool false).

End Methods.
End QueryService.

(* ================================================================= *)
(** ** Vocabulary of the statements about the facades *)

(** The signature a call computes in world [w] (empty when the
    credentials cannot be encoded, in which case nothing is sent). *)
Definition sign_at (self : XpyunClient) (w : world) : str :=
  match encode_utf8 (user (auth self) ++ user_key (auth self) ++ timestamp_at w) with
  | Some data => SHA1.hexdigest (SHA1.sha1 data)
  | None => []
  end.


(** Both credentials are text [str.encode] accepts. *)
Definition good_credentials (self : XpyunClient) : bool :=
  encodable (user (auth self)) && encodable (user_key (auth self)).

(** [str.upper()] on the ASCII range, where it coincides with the
    builtin; used to instantiate the builtin in examples. *)
Definition upper_char (c : N) : N :=
  (if (97 <=? c) && (c <=? 122) then c - 32 else c)%N.

Definition ascii_upper (s : str) : str := map upper_char s.

(** A client whose identity holds a lone surrogate. *)
Definition broken_shop : XpyunClient :=
  XpyunClient_init [0x61; 0xD800]%N (lit "key") false.



(** [d.get(k, default)] on a dictionary. *)
Definition get_or (d : dict) (k : str) (default : value) : value :=
  match dict_get d k with Some v => v | None => default end.



(** The transport of world [w] fails with instances of [Exception] only
    (no [KeyboardInterrupt], [SystemExit] or the like). *)
Definition transport_raises_exceptions_only (w : world) : Prop :=
  forall k rq e, remote w k rq = Failed e -> isinstance e Exception = true.

(** Runs [print_and_voice] through the print [Hprint] and the voice
    call [Hvoice]. *)
Ltac run_print_and_voice Hprint Hvoice :=
  unfold VoiceService.print_and_voice;
  unfold bind at 1; rewrite Hprint;
  unfold bind at 1; unfold try_except; unfold bind at 1; rewrite Hvoice.

(* ================================================================= *)
(** ** Known answers of SHA-1 (FIPS 180 examples) *)

Example sha1_empty :
  SHA1.hexdigest (SHA1.sha1 []) = lit "da39a3ee5e6b4b0d3255bfef95601890afd80709".
Proof. vm_compute. reflexivity. Qed.

Example sha1_abc :
  option_map (fun b => SHA1.hexdigest (SHA1.sha1 b)) (encode_utf8 (lit "abc"))
  = Some (lit "a9993e364706816aba3e25717850c26c9cd0d89d").
Proof. vm_compute. reflexivity. Qed.

Example sha1_two_blocks :
  option_map (fun b => SHA1.hexdigest (SHA1.sha1 b))
    (encode_utf8 (lit "abcdbcdecdefdefgefghfghighijhijkijkljklmklmnlmnomnopnopq"))
  = Some (lit "84983e441c3bd26ebaae4aa1f95129e5e54670f1").
Proof. vm_compute. reflexivity. Qed.

(* ================================================================= *)
(** ** Text: encoding and the shape of a hex digest *)

Lemma encode_utf8_app (a b : str) :
  encode_utf8 (a ++ b) =
  match encode_utf8 a, encode_utf8 b with
  | Some x, Some y => Some (x ++ y)
  | _, _ => None
  end.
Proof.
  induction a as [|c a IH]; simpl.
  - destruct (encode_utf8 b); reflexivity.
  - rewrite IH.
    destruct (utf8_char c), (encode_utf8 a), (encode_utf8 b);
      try reflexivity.
    now rewrite app_assoc.
Qed.

Lemma be_bytes_length (n : nat) (x : Z) : length (SHA1.be_bytes n x) = n.
Proof. induction n; simpl; congruence. Qed.

Lemma digest_length (s : SHA1.state) : length (SHA1.digest s) = 20%nat.
Proof.
  unfold SHA1.digest. rewrite !length_app, !be_bytes_length. reflexivity.
Qed.

Lemma hexdigest_length (s : SHA1.state) : length (SHA1.hexdigest s) = 40%nat.
Proof.
  unfold SHA1.hexdigest.
  assert (H : forall l, length (flat_map SHA1.hex_of_byte l) = (2 * length l)%nat).
  { induction l as [|b l IH]; simpl; [reflexivity | rewrite IH; lia]. }
  rewrite H, digest_length. reflexivity.
Qed.

Lemma hex_digit_lower (n : N) :
  (n < 16)%N -> is_lower_hex (SHA1.hex_digit n) = true.
Proof.
  intros Hn. unfold SHA1.hex_digit, is_lower_hex.
  destruct (N.ltb_spec n 10).
  - apply orb_true_iff. left. apply andb_true_iff.
    split; apply N.leb_le; lia.
  - apply orb_true_iff. right. apply andb_true_iff.
    split; apply N.leb_le; lia.
Qed.

Lemma hex_of_byte_lower (b : byte) :
  forallb is_lower_hex (SHA1.hex_of_byte b) = true.
Proof.
  unfold SHA1.hex_of_byte. simpl.
  pose proof (Byte.to_N_bounded b) as Hb.
  rewrite !hex_digit_lower; [reflexivity | |].
  - apply N.mod_upper_bound. discriminate.
  - apply N.Div0.div_lt_upper_bound. lia.
Qed.

Lemma hexdigest_lower_hex (s : SHA1.state) :
  forallb is_lower_hex (SHA1.hexdigest s) = true.
Proof.
  unfold SHA1.hexdigest.
  induction (SHA1.digest s) as [|b l IH]; [reflexivity|].
  cbn [flat_map]. rewrite forallb_app, hex_of_byte_lower, IH. reflexivity.
Qed.

Lemma lower_char_hex (c : N) : is_lower_hex c = true -> lower_char c = c.
Proof.
  unfold is_lower_hex, lower_char. intros H.
  destruct (N.leb_spec 65 c) as [Hlo|Hlo], (N.leb_spec c 90) as [Hhi|Hhi];
    simpl; try reflexivity.
  apply orb_true_iff in H.
  destruct H as [H|H]; apply andb_true_iff in H; destruct H as [Ha Hb];
    apply N.leb_le in Ha, Hb; lia.
Qed.

Lemma lower_hex_fixed (s : str) :
  forallb is_lower_hex s = true -> lower s = s.
Proof.
  unfold lower. induction s as [|c s IH]; simpl; [reflexivity|].
  intros H. apply andb_true_iff in H. destruct H as [Hc Hs].
  rewrite lower_char_hex, IH by assumption. reflexivity.
Qed.

(** C1.  Given a timestamp, [generate_sign] returns the hex digest of
    SHA-1 over the UTF-8 bytes of identity, secret and timestamp joined in
    that order; the digest text has exactly 40 characters, all of them in
    [0-9a-f]; neither the result nor the world depends on anything but the
    three strings; and on the vector of the specification the result is
    5a7686511424b59153c9e05c1e9755c843dfcff2. *)
Theorem generate_sign_sha1_hex :
  forall (self : XpyunAuth) (timestamp : str) (data : bytes) (w : world),
    encode_utf8 (user self ++ user_key self ++ timestamp) = Some data ->
    generate_sign self (Some timestamp) w
      = (Ok (SHA1.hexdigest (SHA1.sha1 data)), w)
    /\ length (SHA1.hexdigest (SHA1.sha1 data)) = 40%nat
    /\ forallb is_lower_hex (SHA1.hexdigest (SHA1.sha1 data)) = true
    /\ (forall w2 : world,
          fst (generate_sign self (Some timestamp) w2)
          = fst (generate_sign self (Some timestamp) w))
    /\ generate_sign
         (Build_XpyunAuth (lit "1911342262@qq.com")
                          (lit "eebc89e280ba47c5a12d6dc750348811"))
         (Some (lit "1700000000")) w
       = (Ok golden_sign, w).
Proof.
  intros self timestamp data w Henc.
  assert (Hrun : forall w0, generate_sign self (Some timestamp) w0
                            = (Ok (SHA1.hexdigest (SHA1.sha1 data)), w0)).
  { intros w0. unfold generate_sign, bind, ret, encode.
    rewrite Henc. unfold ret.
    rewrite lower_hex_fixed by apply hexdigest_lower_hex. reflexivity. }
  split; [apply Hrun|].
  split; [apply hexdigest_length|].
  split; [apply hexdigest_lower_hex|].
  split; [intros w2; now rewrite !Hrun|].
  vm_compute. reflexivity.
Qed.

Lemma generate_sign_sha1_hex_witness :
  generate_sign
    (Build_XpyunAuth (lit "1911342262@qq.com") (lit "eebc89e280ba47c5a12d6dc750348811"))
    (Some (lit "1700000000")) (world_with (Failed (PyExc Timeout [] [] None)))
  = (Ok golden_sign, world_with (Failed (PyExc Timeout [] [] None))).
Proof.
  pose proof (generate_sign_sha1_hex
                (Build_XpyunAuth (lit "1911342262@qq.com")
                                 (lit "eebc89e280ba47c5a12d6dc750348811"))
                (lit "1700000000")
                (map Text.byte_of_N
                   (lit "1911342262@qq.comeebc89e280ba47c5a12d6dc7503488111700000000"))
                (world_with (Failed (PyExc Timeout [] [] None)))
                eq_refl) as H.
  exact (proj2 (proj2 (proj2 (proj2 H)))).
Defined.

(* ================================================================= *)
(** ** SHA-1: padding leaves whole blocks, and no word is dropped *)

Lemma pad_length (msg : bytes) :
  exists n, length (SHA1.pad msg) = (64 * n)%nat.
Proof.
  unfold SHA1.pad.
  rewrite !length_app, repeat_length, be_bytes_length. cbn [length].
  set (len := Z.of_nat (length msg)).
  assert (Hlen : (0 <= len)%Z) by (subst len; lia).
  pose proof (Z.mod_pos_bound (55 - len) 64 eq_refl) as Hk.
  assert (Hq : ((55 - len) / 64 < 1)%Z) by (apply Z.div_lt_upper_bound; lia).
  pose proof (Z.div_mod (55 - len) 64 ltac:(lia)) as Hdiv.
  exists (Z.to_nat (1 - (55 - len) / 64)).
  apply Nat2Z.inj. rewrite Nat2Z.inj_mul, !Nat2Z.inj_add.
  rewrite (Z2Nat.id ((55 - len) mod 64)) by lia.
  rewrite (Z2Nat.id (1 - (55 - len) / 64)) by lia.
  change (Z.of_nat 1) with 1%Z. change (Z.of_nat 8) with 8%Z.
  change (Z.of_nat 64) with 64%Z. subst len. lia.
Qed.

Lemma words_length (n : nat) :
  forall bs, length bs = (4 * n)%nat -> length (SHA1.words bs) = n.
Proof.
  induction n as [|n IH]; intros bs H.
  - destruct bs; [reflexivity | discriminate].
  - do 4 (destruct bs as [|? bs]; [cbn in H; lia|]).
    cbn [SHA1.words length]. f_equal. apply IH. cbn in H. lia.
Qed.

Lemma blocks_cover (n : nat) :
  forall ws, length ws = (16 * n)%nat ->
             concat (SHA1.blocks ws) = ws /\ length (SHA1.blocks ws) = n.
Proof.
  induction n as [|n IH]; intros ws H.
  - destruct ws; [split; reflexivity | discriminate].
  - do 16 (destruct ws as [|? ws]; [cbn in H; lia|]).
    destruct (IH ws) as [Hcat Hlen]; [cbn in H; lia|].
    cbn [SHA1.blocks concat length app]. rewrite Hcat, Hlen. split; reflexivity.
Qed.

(** Every word of the padded message is compressed, in order. *)
Lemma sha1_absorbs_all (data : bytes) :
  concat (SHA1.blocks (SHA1.words (SHA1.pad data))) = SHA1.words (SHA1.pad data)
  /\ (4 * length (SHA1.words (SHA1.pad data)) = length (SHA1.pad data))%nat.
Proof.
  destruct (pad_length data) as [n Hn].
  assert (Hw : length (SHA1.words (SHA1.pad data)) = (16 * n)%nat)
    by (apply words_length; lia).
  split; [apply (blocks_cover n), Hw | lia].
Qed.

(* ================================================================= *)
(** ** Sanity checks of the text and class models *)

Example utf8_three_bytes :                      (* '未'.encode('utf-8') *)
  encode_utf8 [0x672a%N] = Some [xe6; x9c; xaa].
Proof. reflexivity. Qed.

Example utf8_four_bytes :                       (* U+1F600 *)
  encode_utf8 [0x1F600%N] = Some [xf0; x9f; x98; x80].
Proof. reflexivity. Qed.

Example utf8_refuses_surrogate : encode_utf8 [0x61; 0xD800]%N = None.
Proof. reflexivity. Qed.

Example str_of_int_samples :
  str_of_int 1700000000 = lit "1700000000"
  /\ str_of_int 0 = lit "0"
  /\ str_of_int (-5) = lit "-5".
Proof. repeat split. Qed.

Example ne_zero_samples :
  ne_zero (VInt 0) = false /\ ne_zero (VInt 3) = true
  /\ ne_zero (VBool false) = false /\ ne_zero (VFloat 0%float) = false
  /\ ne_zero (VFloat (-0)%float) = false
  /\ ne_zero VNone = true /\ ne_zero (VStr (lit "0")) = true.
Proof. repeat split. Qed.

Example json_error_of_requests_2_27 :
  issubclass RequestsJSONDecodeError RequestException = true
  /\ issubclass RequestsJSONDecodeError JSONDecodeError = true
  /\ issubclass JSONDecodeError RequestException = false.
Proof. repeat split. Qed.

Example sdk_errors :
  forallb (fun c => issubclass c XpyunError)
    [XpyunError; XpyunAuthError; XpyunAPIError; XpyunNetworkError] = true
  /\ issubclass KeyboardInterrupt Exception = false.
Proof. split; reflexivity. Qed.

(** Six levels are enough to walk the whole hierarchy: a deeper search
    finds nothing new, and every class reaches the root. *)
Lemma issubclass_saturated (c d : exc_class) :
  issubclass_upto 7 c d = issubclass c d.
Proof. destruct c, d; reflexivity. Qed.

Lemma issubclass_root (c : exc_class) : issubclass c BaseException = true.
Proof. destruct c; reflexivity. Qed.

(* ================================================================= *)
(** ** Dictionaries *)

Lemma str_eqb_eq (a b : str) : str_eqb a b = true <-> a = b.
Proof.
  revert b. induction a as [|x a IH]; destruct b as [|y b]; simpl;
    try (split; [discriminate | discriminate]); [tauto|].
  rewrite andb_true_iff, N.eqb_eq, IH.
  split; [intros [-> ->]; reflexivity | intros H; inversion H; auto].
Qed.


Lemma str_eqb_neq (a b : str) : str_eqb a b = false <-> a <> b.
Proof.
  rewrite <- str_eqb_eq. destruct (str_eqb a b); split; congruence.
Qed.







(* ================================================================= *)
(** ** Decimal text is ASCII, and ASCII text always encodes *)

Lemma encode_ascii (s : str) :
  is_ascii s = true -> encode_utf8 s = Some (map byte_of_N s).
Proof.
  unfold is_ascii. induction s as [|c s IH]; simpl; [reflexivity|].
  intros H. apply andb_true_iff in H. destruct H as [Hc Hs].
  rewrite IH by assumption. unfold utf8_char.
  change (c <? 0x80)%N with (c <? 128)%N. rewrite Hc. reflexivity.
Qed.

Lemma string_of_uint_ascii (d : Decimal.uint) :
  is_ascii (lit (NilEmpty.string_of_uint d)) = true.
Proof. induction d; simpl; auto. Qed.

Lemma str_of_int_ascii (z : Z) : is_ascii (str_of_int z) = true.
Proof.
  unfold str_of_int. destruct (Z.to_int z); simpl;
    apply string_of_uint_ascii.
Qed.

Lemma encodable_app (a b : str) :
  encodable (a ++ b) = encodable a && encodable b.
Proof.
  unfold encodable. rewrite encode_utf8_app.
  destruct (encode_utf8 a), (encode_utf8 b); reflexivity.
Qed.

Lemma encodable_str_of_int (z : Z) : encodable (str_of_int z) = true.
Proof.
  unfold encodable. now rewrite encode_ascii by apply str_of_int_ascii.
Qed.

(* ================================================================= *)
(** ** auth.py *)

Lemma generate_sign_given (self : XpyunAuth) (ts : str) (w : world) :
  generate_sign self (Some ts) w =
  match encode_utf8 (user self ++ user_key self ++ ts) with
  | Some data => (Ok (SHA1.hexdigest (SHA1.sha1 data)), w)
  | None => (Raise encode_error, w)
  end.
Proof.
  unfold generate_sign, bind, ret, encode.
  destruct (encode_utf8 _) as [data|]; [|reflexivity].
  unfold ret. now rewrite lower_hex_fixed by apply hexdigest_lower_hex.
Qed.

Lemma get_auth_params_run (self : XpyunAuth) (w : world) :
  get_auth_params self w =
  match encode_utf8 (user self ++ user_key self ++ timestamp_at w) with
  | Some data =>
      (Ok [(lit "user", VStr (user self));
           (lit "timestamp", VStr (timestamp_at w));
           (lit "sign", VStr (SHA1.hexdigest (SHA1.sha1 data)))], tick w)
  | None => (Raise encode_error, tick w)
  end.
Proof.
  unfold get_auth_params, bind at 1. unfold time_seconds.
  unfold bind. rewrite generate_sign_given. fold (timestamp_at w). fold (tick w).
  destruct (encode_utf8 _); reflexivity.
Qed.

Lemma credentials_encode (self : XpyunAuth) (ts : str) :
  encodable (user self) = true -> encodable (user_key self) = true ->
  encodable ts = true ->
  exists data, encode_utf8 (user self ++ user_key self ++ ts) = Some data.
Proof.
  intros Hu Hk Ht.
  assert (H : encodable (user self ++ user_key self ++ ts) = true)
    by now rewrite !encodable_app, Hu, Hk, Ht.
  unfold encodable in H. destruct (encode_utf8 _) as [data|]; [eauto|discriminate].
Qed.

(** C7.  Whenever [get_auth_params] returns a mapping, its [sign] entry
    is what [generate_sign] gives for the [timestamp] entry of that same
    mapping, that timestamp is the clock reading of this call, and its
    [user] entry is the identity given at construction; and it does
    return one whenever identity and secret are encodable text. *)
Theorem get_auth_params_consistent :
  forall (self : XpyunAuth) (w : world),
    (forall (d : dict) (w' : world),
        get_auth_params self w = (Ok d, w') ->
        exists ts sign,
          dict_get d (lit "timestamp") = Some (VStr ts)
          /\ dict_get d (lit "sign") = Some (VStr sign)
          /\ dict_get d (lit "user") = Some (VStr (user self))
          /\ ts = timestamp_at w
          /\ forall w2, generate_sign self (Some ts) w2 = (Ok sign, w2))
    /\ (encodable (user self) = true -> encodable (user_key self) = true ->
        exists d, get_auth_params self w = (Ok d, tick w)).
Proof.
  intros self w. split.
  - intros d w' Hrun. rewrite get_auth_params_run in Hrun.
    destruct (encode_utf8 _) as [data|] eqn:Henc; [|discriminate].
    inversion Hrun; subst; clear Hrun.
    exists (timestamp_at w), (SHA1.hexdigest (SHA1.sha1 data)).
    repeat split; try reflexivity.
    intros w2. now rewrite generate_sign_given, Henc.
  - intros Hu Hk. rewrite get_auth_params_run.
    destruct (credentials_encode self (timestamp_at w) Hu Hk
                (encodable_str_of_int _)) as [data ->].
    eauto.
Qed.

Lemma get_auth_params_consistent_witness :
  (exists ts sign,
      dict_get (generated shop (world_with (Failed (PyExc Timeout [] [] None))) golden_sign)
        (lit "timestamp") = Some (VStr ts)
      /\ dict_get (generated shop (world_with (Failed (PyExc Timeout [] [] None))) golden_sign)
           (lit "sign") = Some (VStr sign)
      /\ ts = lit "1700000000"
      /\ generate_sign (auth shop) (Some ts) (world_with (Failed (PyExc Timeout [] [] None)))
         = (Ok sign, world_with (Failed (PyExc Timeout [] [] None))))
  /\ exists d, get_auth_params (auth shop) (world_with (Failed (PyExc Timeout [] [] None)))
               = (Ok d, tick (world_with (Failed (PyExc Timeout [] [] None)))).
Proof.
  pose proof (get_auth_params_consistent (auth shop)
                (world_with (Failed (PyExc Timeout [] [] None)))) as [Hany Hruns].
  split.
  - destruct (Hany [(lit "user", VStr (user (auth shop)));
                    (lit "timestamp", VStr (lit "1700000000"));
                    (lit "sign", VStr golden_sign)]
                   (tick (world_with (Failed (PyExc Timeout [] [] None))))
                   eq_refl)
      as (ts & sign & Hts & Hsign & _ & Heq & Hgen).
    exists ts, sign. repeat split.
    + exact Hts.
    + exact Hsign.
    + exact Heq.
    + apply Hgen.
  - exact (Hruns eq_refl eq_refl).
Defined.

(* ================================================================= *)
(** ** client.py: building the request data *)

Section DispatcherFacts.

Variable py_str : value -> str.
Variable dumps : value -> str.
Variable release : requests_release.

Lemma prepare_run (self : XpyunClient) (params : option dict) (w : world) :
  prepare_request_data self params w =
  match encode_utf8 (user (auth self) ++ user_key (auth self) ++ timestamp_at w) with
  | Some data =>
      (Ok (merged (generated self w (SHA1.hexdigest (SHA1.sha1 data))) params),
       tick (tick w))
  | None => (Raise encode_error, tick w)
  end.
Proof.
  unfold prepare_request_data, bind. rewrite get_auth_params_run.
  destruct (encode_utf8 _) as [data|]; [|reflexivity].
  unfold time_millis, ret, merged, generated, request_time_at, tick. simpl.
  destruct params as [[|kv p]|]; reflexivity.
Qed.

(** *** The body of the [try], case by case *)

Lemma attempt_failed self method rd w e :
  remote w (length (posts w)) (request_for self method rd) = Failed e ->
  fst (attempt py_str dumps release self method rd w) = Raise e.
Proof. intros H. run_attempt H; reflexivity. Qed.

Lemma attempt_http_error self method rd w r m :
  remote w (length (posts w)) (request_for self method rd) = Responded r ->
  http_error_msg r = Some m ->
  fst (attempt py_str dumps release self method rd w)
  = Raise (PyExc HTTPError m [] None).
Proof.
  intros H Hm. run_attempt H; unfold raise_for_status; rewrite Hm; reflexivity.
Qed.

Lemma attempt_not_json self method rd w r complaint :
  remote w (length (posts w)) (request_for self method rd) = Responded r ->
  http_error_msg r = None ->
  content r = NotJson complaint ->
  fst (attempt py_str dumps release self method rd w)
  = Raise (json_error release complaint).
Proof.
  intros H Hm Hc.
  run_attempt H; unfold raise_for_status, Response_json; rewrite Hm, Hc;
    reflexivity.
Qed.

Lemma attempt_over_limit self method rd w r l complaint :
  remote w (length (posts w)) (request_for self method rd) = Responded r ->
  http_error_msg r = None ->
  content r = OverLimit l complaint ->
  fst (attempt py_str dumps release self method rd w)
  = Raise (PyExc (limit_class l) complaint [] None).
Proof.
  intros H Hm Hc.
  run_attempt H; unfold raise_for_status, Response_json; rewrite Hm, Hc;
    reflexivity.
Qed.

Lemma attempt_not_dict self method rd w r v :
  remote w (length (posts w)) (request_for self method rd) = Responded r ->
  http_error_msg r = None ->
  content r = Json v ->
  (forall d, v <> VDict d) ->
  fst (attempt py_str dumps release self method rd w)
  = Raise (PyExc AttributeError
             (lit "'" ++ type_name v ++ lit "' object has no attribute 'get'")
             [] None).
Proof.
  intros H Hm Hc Hv.
  run_attempt H; unfold raise_for_status, Response_json; rewrite Hm, Hc; cbn;
    destruct v; try reflexivity; exfalso; eapply Hv; reflexivity.
Qed.

Lemma attempt_dict self method rd w r d :
  remote w (length (posts w)) (request_for self method rd) = Responded r ->
  http_error_msg r = None ->
  content r = Json (VDict d) ->
  fst (attempt py_str dumps release self method rd w)
  = if ne_zero (match dict_get d (lit "code") with Some c => c | None => VNone end)
    then Raise (XpyunAPIError_init py_str
                  (match dict_get d (lit "code") with Some c => c | None => VNone end)
                  (match dict_get d (lit "msg") with
                   | Some m => m
                   | None => VStr msg_unknown_error
                   end)
                  (match dict_get d (lit "data") with Some x => x | None => VNone end))
    else Ok (VDict d).
Proof.
  intros H Hm Hc.
  run_attempt H; unfold raise_for_status, Response_json; rewrite Hm, Hc; cbn;
    destruct (ne_zero _); reflexivity.
Qed.

(** The body of the [try] issues exactly one POST, whatever happens. *)
Lemma attempt_posts self method rd w :
  posts (snd (attempt py_str dumps release self method rd w))
  = posts w ++ [request_for self method rd].
Proof.
  unfold attempt, bind, session_post, request_for.
  destruct (debug self); cbn;
    (destruct (remote w _ _) as [r|e]; cbn; [|reflexivity];
     unfold raise_for_status; destruct (http_error_msg r); cbn; [reflexivity|];
     unfold Response_json; destruct (content r) as [v|c|l c]; cbn;
     [|reflexivity|reflexivity];
     destruct v; cbn; try reflexivity;
     destruct (ne_zero _); reflexivity).
Qed.

(** *** The [except] clauses *)

Lemma make_request_prepared self method params w rd w1 :
  prepare_request_data self params w = (Ok rd, w1) ->
  _make_request py_str dumps release self method params w
  = try_except (attempt py_str dumps release self method rd) handlers w1.
Proof. intros H. unfold _make_request, bind. now rewrite H. Qed.

Lemma make_request_unprepared self method params w e w1 :
  prepare_request_data self params w = (Raise e, w1) ->
  _make_request py_str dumps release self method params w = (Raise e, w1).
Proof. intros H. unfold _make_request, bind. now rewrite H. Qed.

Lemma make_request_ok self method params w rd w1 v :
  prepare_request_data self params w = (Ok rd, w1) ->
  fst (attempt py_str dumps release self method rd w1) = Ok v ->
  fst (_make_request py_str dumps release self method params w) = Ok v.
Proof.
  intros Hp Ha. rewrite (make_request_prepared self method params w rd w1 Hp). unfold try_except.
  destruct (attempt _ _ _ _ _ _ _) as [[a|e] w2]; simpl in *; congruence.
Qed.

Lemma make_request_raise self method params w rd w1 e :
  prepare_request_data self params w = (Ok rd, w1) ->
  fst (attempt py_str dumps release self method rd w1) = Raise e ->
  fst (_make_request py_str dumps release self method params w)
  = if isinstance e RequestException then
      Raise (PyExc XpyunNetworkError (msg_network_failed ++ exc_str e) [] (Some e))
    else if isinstance e JSONDecodeError then
      Raise (PyExc XpyunError (msg_parse_failed ++ exc_str e) [] (Some e))
    else if isinstance e XpyunAPIError then Raise e
    else if isinstance e Exception then
      Raise (PyExc XpyunError (msg_unknown_error ++ lit ": " ++ exc_str e) [] (Some e))
    else Raise e.
Proof.
  intros Hp Ha. rewrite (make_request_prepared self method params w rd w1 Hp). unfold try_except.
  destruct (attempt _ _ _ _ _ _ _) as [[a|e0] w2]; simpl in Ha; [discriminate|].
  inversion Ha; subst e0; clear Ha.
  unfold handlers, select.
  destruct (isinstance e RequestException); [reflexivity|].
  destruct (isinstance e JSONDecodeError); [reflexivity|].
  destruct (isinstance e XpyunAPIError); [reflexivity|].
  destruct (isinstance e Exception); reflexivity.
Qed.

Lemma make_request_posts self method params w rd w1 :
  prepare_request_data self params w = (Ok rd, w1) ->
  posts (snd (_make_request py_str dumps release self method params w))
  = posts w ++ [request_for self method rd].
Proof.
  intros Hp. rewrite (make_request_prepared self method params w rd w1 Hp).
  assert (Hw : posts w1 = posts w).
  { rewrite prepare_run in Hp. destruct (encode_utf8 _); inversion Hp; reflexivity. }
  pose proof (attempt_posts self method rd w1) as Ha.
  unfold try_except.
  destruct (attempt _ _ _ _ _ _ _) as [[a|e] w2]; simpl in *.
  - now rewrite Ha, Hw.
  - unfold handlers, select.
    destruct (isinstance e RequestException); [simpl; now rewrite Ha, Hw|].
    destruct (isinstance e JSONDecodeError); [simpl; now rewrite Ha, Hw|].
    destruct (isinstance e XpyunAPIError); [simpl; now rewrite Ha, Hw|].
    destruct (isinstance e Exception); simpl; now rewrite Ha, Hw.
Qed.

Lemma answer_inv self method params w o :
  answer self method params w = Some o ->
  exists rd w1,
    prepare_request_data self params w = (Ok rd, w1)
    /\ remote w1 (length (posts w1)) (request_for self method rd) = o.
Proof.
  unfold answer, request_for.
  destruct (prepare_request_data self params w) as [[rd|e] w1]; [|discriminate].
  intros H. inversion H. eauto.
Qed.

End DispatcherFacts.

(* ================================================================= *)
(** ** client.py: what goes out *)





(* ================================================================= *)
(** ** client.py: how the outcome of the POST is classified *)

(** A response passes the status check exactly when its status is
    neither 4xx nor 5xx. *)
Lemma http_error_msg_none (r : response) :
  http_error_msg r = None <-> ~ (400 <= status_code r < 600)%Z.
Proof.
  unfold http_error_msg.
  destruct (Z.leb_spec 400 (status_code r)), (Z.ltb_spec (status_code r) 500),
    (Z.leb_spec 500 (status_code r)), (Z.ltb_spec (status_code r) 600);
    cbn [andb]; split; intros Hgoal; try discriminate; try reflexivity; lia.
Qed.

(** C6.  A failure raised by the transport (any [RequestException], which
    covers refused connections, DNS failures, timeouts and TLS failures)
    comes out as [XpyunNetworkError]: its text embeds the text of the
    cause, its context is the cause itself, and exactly one POST was
    issued. *)
Theorem transport_failure_is_network_error :
  forall (py_str dumps : value -> str) (release : requests_release)
         (self : XpyunClient) (method : str) (params : option dict) (w : world)
         (e : pyexc),
    answer self method params w = Some (Failed e) ->
    isinstance e RequestException = true ->
    fst (_make_request py_str dumps release self method params w)
    = Raise (PyExc XpyunNetworkError (msg_network_failed ++ exc_str e) [] (Some e))
    /\ (exists rq,
           posts (snd (_make_request py_str dumps release self method params w))
           = posts w ++ [rq])
    /\ forallb (fun c => issubclass c RequestException) transport_failures = true.
Proof.
  intros py_str dumps release self method params w e Hans Hreq.
  destruct (answer_inv _ _ _ _ _ Hans) as (rd & w1 & Hp & Hremote).
  split; [|split].
  - rewrite (make_request_raise py_str dumps release self method params w rd w1 e Hp
               (attempt_failed py_str dumps release self method rd w1 e Hremote)).
    now rewrite Hreq.
  - eexists. exact (make_request_posts py_str dumps release self method params w rd w1 Hp).
  - reflexivity.
Qed.

Lemma transport_failure_is_network_error_witness :
  fst (_make_request scalar_str scalar_str Requests_since_2_27 shop (lit "print") None
         (world_with (Failed (PyExc ConnectTimeout (lit "timed out") [] None))))
  = Raise (PyExc XpyunNetworkError (msg_network_failed ++ lit "timed out") []
             (Some (PyExc ConnectTimeout (lit "timed out") [] None))).
Proof.
  exact (proj1 (transport_failure_is_network_error scalar_str scalar_str
                  Requests_since_2_27 shop (lit "print") None
                  (world_with (Failed (PyExc ConnectTimeout (lit "timed out") [] None)))
                  (PyExc ConnectTimeout (lit "timed out") [] None)
                  eq_refl eq_refl)).
Defined.

(** C10.  A response with a 4xx or 5xx status comes out as
    [XpyunNetworkError] built from [raise_for_status]'s [HTTPError]; the
    message is made of status, reason and URL only, so the body, JSON
    with [code == 0] or not, plays no part. *)
Theorem http_error_status_is_network_error :
  forall (py_str dumps : value -> str) (release : requests_release)
         (self : XpyunClient) (method : str) (params : option dict) (w : world)
         (r : response),
    answer self method params w = Some (Responded r) ->
    (400 <= status_code r < 600)%Z ->
    exists m,
      (forall b, http_error_msg (Response (status_code r) (reason r) (url r) b) = Some m)
      /\ fst (_make_request py_str dumps release self method params w)
         = Raise (PyExc XpyunNetworkError (msg_network_failed ++ m) []
                    (Some (PyExc HTTPError m [] None))).
Proof.
  intros py_str dumps release self method params w r Hans Hstatus.
  destruct (answer_inv _ _ _ _ _ Hans) as (rd & w1 & Hp & Hremote).
  assert (Hm : exists m, forall b,
             http_error_msg (Response (status_code r) (reason r) (url r) b) = Some m).
  { unfold http_error_msg. cbn [status_code reason url].
    destruct (Z.leb_spec 400 (status_code r)); [|lia].
    destruct (Z.ltb_spec (status_code r) 500); cbn [andb]; [eauto|].
    destruct (Z.leb_spec 500 (status_code r)); [|lia].
    destruct (Z.ltb_spec (status_code r) 600); cbn [andb]; [eauto|lia]. }
  destruct Hm as [m Hm]. exists m. split; [exact Hm|].
  assert (Hr : http_error_msg r = Some m) by (destruct r; apply Hm).
  rewrite (make_request_raise py_str dumps release self method params w rd w1 _ Hp
             (attempt_http_error py_str dumps release self method rd w1 r m Hremote Hr)).
  reflexivity.
Qed.

Lemma http_error_status_is_network_error_witness :
  exists m,
    fst (_make_request scalar_str scalar_str Requests_since_2_27 shop (lit "print") None
           (world_with (Responded (Response 503 (lit "Service Unavailable")
                                     (BASE_URL ++ lit "/print")
                                     (Json (VDict [(lit "code", VInt 0)]))))))
    = Raise (PyExc XpyunNetworkError (msg_network_failed ++ m) []
               (Some (PyExc HTTPError m [] None))).
Proof.
  destruct (http_error_status_is_network_error scalar_str scalar_str
              Requests_since_2_27 shop (lit "print") None
              (world_with (Responded (Response 503 (lit "Service Unavailable")
                                        (BASE_URL ++ lit "/print")
                                        (Json (VDict [(lit "code", VInt 0)])))))
              (Response 503 (lit "Service Unavailable") (BASE_URL ++ lit "/print")
                 (Json (VDict [(lit "code", VInt 0)])))
              eq_refl ltac:(cbn; lia))
    as [m [_ H]].
  exists m. exact H.
Defined.

(** With a release of [requests] older than 2.27 a body that is not JSON
    reaches the [except json.JSONDecodeError] clause. *)
Lemma invalid_json_is_parse_error_before_2_27 :
  forall (py_str dumps : value -> str)
         (self : XpyunClient) (method : str) (params : option dict) (w : world)
         (r : response) (complaint : str),
    answer self method params w = Some (Responded r) ->
    http_error_msg r = None ->
    content r = NotJson complaint ->
    fst (_make_request py_str dumps Requests_before_2_27 self method params w)
    = Raise (PyExc XpyunError (msg_parse_failed ++ complaint) []
               (Some (json_error Requests_before_2_27 complaint))).
Proof.
  intros py_str dumps self method params w r complaint Hans Hm Hc.
  destruct (answer_inv _ _ _ _ _ Hans) as (rd & w1 & Hp & Hremote).
  rewrite (make_request_raise py_str dumps _ self method params w rd w1 _ Hp
             (attempt_not_json py_str dumps _ self method rd w1 r complaint
                Hremote Hm Hc)).
  reflexivity.
Qed.

(** C3, on the code.  With [requests] 2.27 or later, a response that
    passes the status check and whose body is not JSON comes out as
    [XpyunNetworkError] with the "network request failed" text: the
    exception [response.json()] raises is a [RequestException] too, and
    that clause comes first.  The "response parse failed" clause is not
    reached. *)
Theorem invalid_json_is_network_error_since_2_27 :
  forall (py_str dumps : value -> str)
         (self : XpyunClient) (method : str) (params : option dict) (w : world)
         (r : response) (complaint : str),
    answer self method params w = Some (Responded r) ->
    http_error_msg r = None ->
    content r = NotJson complaint ->
    fst (_make_request py_str dumps Requests_since_2_27 self method params w)
    = Raise (PyExc XpyunNetworkError (msg_network_failed ++ complaint) []
               (Some (json_error Requests_since_2_27 complaint)))
    /\ isinstance (json_error Requests_since_2_27 complaint) JSONDecodeError = true
    /\ isinstance (json_error Requests_since_2_27 complaint) RequestException = true.
Proof.
  intros py_str dumps self method params w r complaint Hans Hm Hc.
  destruct (answer_inv _ _ _ _ _ Hans) as (rd & w1 & Hp & Hremote).
  rewrite (make_request_raise py_str dumps _ self method params w rd w1 _ Hp
             (attempt_not_json py_str dumps _ self method rd w1 r complaint
                Hremote Hm Hc)).
  repeat split.
Qed.

Lemma invalid_json_is_network_error_since_2_27_witness :
  fst (_make_request scalar_str scalar_str Requests_since_2_27 shop (lit "print") None
         (world_with (Responded (html_page 200 (lit "OK")))))
  = Raise (PyExc XpyunNetworkError
             (msg_network_failed ++ lit "Expecting value: line 1 column 1 (char 0)") []
             (Some (json_error Requests_since_2_27
                      (lit "Expecting value: line 1 column 1 (char 0)")))).
Proof.
  exact (proj1 (invalid_json_is_network_error_since_2_27 scalar_str scalar_str
                  shop (lit "print") None
                  (world_with (Responded (html_page 200 (lit "OK"))))
                  (html_page 200 (lit "OK"))
                  (lit "Expecting value: line 1 column 1 (char 0)")
                  eq_refl eq_refl eq_refl)).
Defined.

(* ================================================================= *)
(** ** client.py: the dispatcher on a console that may refuse a line *)


Lemma dispatch_ok (body : M value) (w : world) (v : value) :
  fst (body w) = Ok v -> fst (try_except body handlers w) = Ok v.
Proof.
  unfold try_except. destruct (body w) as [[a|e] w1]; simpl; congruence.
Qed.

Lemma dispatch_raise (body : M value) (w : world) (e : pyexc) :
  fst (body w) = Raise e ->
  fst (try_except body handlers w)
  = if isinstance e RequestException then
      Raise (PyExc XpyunNetworkError (msg_network_failed ++ exc_str e) [] (Some e))
    else if isinstance e JSONDecodeError then
      Raise (PyExc XpyunError (msg_parse_failed ++ exc_str e) [] (Some e))
    else if isinstance e XpyunAPIError then Raise e
    else if isinstance e Exception then
      Raise (PyExc XpyunError (msg_unknown_error ++ lit ": " ++ exc_str e) [] (Some e))
    else Raise e.
Proof.
  unfold try_except. destruct (body w) as [[a|e0] w1]; simpl; [discriminate|].
  intros H. inversion H; subst e0; clear H.
  unfold handlers, select.
  destruct (isinstance e RequestException); [reflexivity|].
  destruct (isinstance e JSONDecodeError); [reflexivity|].
  destruct (isinstance e XpyunAPIError); [reflexivity|].
  destruct (isinstance e Exception); reflexivity.
Qed.


Section ConsoleFacts.

Variable py_str : value -> str.
Variable dumps : value -> str.
Variable release : requests_release.
Variable out : console.

(** With debug off the console is not used. *)
Lemma attempt_on_quiet self method rd w :
  debug self = false ->
  attempt_on py_str dumps release out self method rd w
  = attempt py_str dumps release self method rd w.
Proof. intros H. unfold attempt_on, attempt. rewrite H. reflexivity. Qed.



(** Where the console takes the lines that are printed, the run is the
    one on a console that takes every line. *)
Lemma attempt_on_agrees self method rd w :
  (debug self = true ->
   out (request_line dumps rd) = None
   /\ forall r v,
        remote w (length (posts w)) (request_for self method rd) = Responded r ->
        http_error_msg r = None ->
        content r = Json v ->
        out (response_line dumps v) = None) ->
  attempt_on py_str dumps release out self method rd w
  = attempt py_str dumps release self method rd w.
Proof.
  intros H. destruct (debug self) eqn:Hd; [|now apply attempt_on_quiet].
  destruct (H eq_refl) as [Hreq Hresp]. clear H.
  unfold attempt_on, attempt, bind, print_on, session_post, request_for in *.
  rewrite Hd. unfold request_line in Hreq. rewrite Hreq. cbn.
  destruct (remote w _ _) as [r|e] eqn:Hremote; cbn; [|reflexivity].
  unfold raise_for_status. destruct (http_error_msg r) eqn:Hm; cbn; [reflexivity|].
  unfold Response_json. destruct (content r) as [v|c|l c] eqn:Hc; cbn;
    [|reflexivity|reflexivity].
  specialize (Hresp r v eq_refl Hm Hc). unfold response_line in Hresp.
  cbn in Hresp. rewrite Hresp. reflexivity.
Qed.


(** The body of the [try] returns only a JSON object whose [code] is
    there and equal to 0. *)
Lemma attempt_on_ok_inv self method rd w v :
  fst (attempt_on py_str dumps release out self method rd w) = Ok v ->
  exists r d c,
    remote w (length (posts w)) (request_for self method rd) = Responded r
    /\ http_error_msg r = None
    /\ content r = Json (VDict d)
    /\ v = VDict d
    /\ dict_get d (lit "code") = Some c
    /\ ne_zero c = false.
Proof.
  unfold attempt_on, bind, print_on, session_post, request_for.
  destruct (debug self); cbn.
  - match goal with |- context [out ?line] => destruct (out line) end;
      cbn; [discriminate|].
    destruct (remote w _ _) as [r|e] eqn:Hremote; cbn; [|discriminate].
    unfold raise_for_status. destruct (http_error_msg r) eqn:Hm; cbn; [discriminate|].
    unfold Response_json. destruct (content r) as [v0|c|l c] eqn:Hc; cbn;
      [|discriminate|discriminate].
    match goal with |- context [out ?line] => destruct (out line) end;
      cbn; [discriminate|].
    destruct v0; cbn; try discriminate.
    match goal with
    | |- context [dict_get d ?k] => destruct (dict_get d k) as [c|] eqn:Hcode
    end; cbn.
    + destruct (ne_zero c) eqn:Hne; cbn; [discriminate|].
      intros H. inversion H; subst v. exists r, d, c. repeat split; assumption.
    + discriminate.
  - destruct (remote w _ _) as [r|e] eqn:Hremote; cbn; [|discriminate].
    unfold raise_for_status. destruct (http_error_msg r) eqn:Hm; cbn; [discriminate|].
    unfold Response_json. destruct (content r) as [v0|c|l c] eqn:Hc; cbn;
      [|discriminate|discriminate].
    destruct v0; cbn; try discriminate.
    match goal with
    | |- context [dict_get d ?k] => destruct (dict_get d k) as [c|] eqn:Hcode
    end; cbn.
    + destruct (ne_zero c) eqn:Hne; cbn; [discriminate|].
      intros H. inversion H; subst v. exists r, d, c. repeat split; assumption.
    + discriminate.
Qed.

Lemma make_request_on_prepared self method params w rd w1 :
  prepare_request_data self params w = (Ok rd, w1) ->
  _make_request_on py_str dumps release out self method params w
  = try_except (attempt_on py_str dumps release out self method rd) handlers w1.
Proof. intros H. unfold _make_request_on, bind. now rewrite H. Qed.

Lemma make_request_on_unprepared self method params w e w1 :
  prepare_request_data self params w = (Raise e, w1) ->
  _make_request_on py_str dumps release out self method params w = (Raise e, w1).
Proof. intros H. unfold _make_request_on, bind. now rewrite H. Qed.

(** Where the console takes the lines that are printed, the call is the
    one on a console that takes every line. *)
Lemma make_request_on_agrees self method params w :
  (debug self = true ->
   forall rd w1,
     prepare_request_data self params w = (Ok rd, w1) ->
     out (request_line dumps rd) = None
     /\ forall r v,
          remote w1 (length (posts w1)) (request_for self method rd) = Responded r ->
          http_error_msg r = None ->
          content r = Json v ->
          out (response_line dumps v) = None) ->
  _make_request_on py_str dumps release out self method params w
  = _make_request py_str dumps release self method params w.
Proof.
  intros H. unfold _make_request_on, _make_request, bind.
  destruct (prepare_request_data self params w) as [[rd|e] w1] eqn:Hp; [|reflexivity].
  unfold try_except. rewrite attempt_on_agrees; [reflexivity|].
  intros Hd. exact (H Hd rd w1 eq_refl).
Qed.

(** The lines of a call answered with [r] are taken. *)
Lemma debug_lines_taken_agrees self method params w r v :
  answer self method params w = Some (Responded r) ->
  content r = Json v ->
  debug_lines_taken out dumps self params w v = true ->
  _make_request_on py_str dumps release out self method params w
  = _make_request py_str dumps release self method params w.
Proof.
  intros Hans Hc Htaken. apply make_request_on_agrees.
  intros Hd rd w1 Hp.
  destruct (answer_inv _ _ _ _ _ Hans) as (rd' & w1' & Hp' & Hremote).
  rewrite Hp in Hp'. inversion Hp'; subst rd' w1'; clear Hp'.
  unfold debug_lines_taken, taken in Htaken. rewrite Hd, Hp in Htaken.
  cbn [negb orb] in Htaken.
  destruct (out (request_line dumps rd)); [discriminate|]. cbn [andb] in Htaken.
  split; [reflexivity|].
  intros r' v' Hremote' _ Hc'. rewrite Hremote in Hremote'.
  inversion Hremote'; subst r'. rewrite Hc in Hc'. inversion Hc'; subst v'.
  destruct (out (response_line dumps v)); [discriminate|reflexivity].
Qed.

End ConsoleFacts.

(** The dispatcher on a console that takes every line, and the
    dispatcher of a client with debug off on any console, are
    [_make_request]. *)
Lemma make_request_on_accepting py_str dumps release self method params w :
  _make_request_on py_str dumps release accepting self method params w
  = _make_request py_str dumps release self method params w.
Proof.
  apply make_request_on_agrees. intros _ rd w1 _. split; [reflexivity|].
  intros; reflexivity.
Qed.

Lemma make_request_on_quiet py_str dumps release out self method params w :
  debug self = false ->
  _make_request_on py_str dumps release out self method params w
  = _make_request py_str dumps release self method params w.
Proof.
  intros Hd. apply make_request_on_agrees. intros Hon. congruence.
Qed.

(** C4, as the code has it.  A response that passes the status check
    and that [response.json()] decodes to an object with a [code]
    different from 0 comes out as [XpyunAPIError], provided the console
    takes the debug lines of a client with debug on; its [code] is the
    response's [code], its [message] the response's [msg] or the default
    text when [msg] is absent, its [data] the response's [data] or
    [None]. *)
Theorem nonzero_code_is_api_error :
  forall (py_str dumps : value -> str) (release : requests_release) (out : console)
         (self : XpyunClient) (method : str) (params : option dict) (w : world)
         (r : response) (d : dict) (c : value),
    answer self method params w = Some (Responded r) ->
    http_error_msg r = None ->
    content r = Json (VDict d) ->
    debug_lines_taken out dumps self params w (VDict d) = true ->
    dict_get d (lit "code") = Some c ->
    ne_zero c = true ->
    exists e,
      fst (_make_request_on py_str dumps release out self method params w) = Raise e
      /\ exc_type e = XpyunAPIError
      /\ getattr e "code" = Some c
      /\ getattr e "message"
         = Some (match dict_get d (lit "msg") with
                 | Some m => m
                 | None => VStr msg_unknown_error
                 end)
      /\ getattr e "data"
         = Some (match dict_get d (lit "data") with
                 | Some x => x
                 | None => VNone
                 end).
Proof.
  intros py_str dumps release out self method params w r d c Hans Hm Hc Htaken Hcode Hne.
  rewrite (debug_lines_taken_agrees py_str dumps release out self method params w r
             (VDict d) Hans Hc Htaken).
  destruct (answer_inv _ _ _ _ _ Hans) as (rd & w1 & Hp & Hremote).
  pose proof (attempt_dict py_str dumps release self method rd w1 r d Hremote Hm Hc)
    as Ha.
  rewrite Hcode, Hne in Ha.
  eexists. split.
  - rewrite (make_request_raise py_str dumps release self method params w rd w1 _ Hp Ha).
    reflexivity.
  - repeat split.
Qed.

Lemma nonzero_code_is_api_error_witness :
  exists e,
    fst (_make_request_on scalar_str flat_dumps Requests_since_2_27 utf8_console
           (with_debug shop true) (lit "print") None
           (answering (VDict printer_not_found))) = Raise e
    /\ exc_type e = XpyunAPIError
    /\ getattr e "code" = Some (VInt 3)
    /\ getattr e "message" = Some (VStr (lit "printer not found"))
    /\ getattr e "data" = Some VNone.
Proof.
  exact (nonzero_code_is_api_error scalar_str flat_dumps Requests_since_2_27
           utf8_console (with_debug shop true) (lit "print") None
           (answering (VDict printer_not_found))
           (ok_response (VDict printer_not_found)) printer_not_found (VInt 3)
           eq_refl eq_refl eq_refl eq_refl eq_refl eq_refl).
Defined.

(** C4, as stated, fails.  A response with status 500 whose body is the
    object [{code: 3, msg: ...}] comes out as [XpyunNetworkError]; and a
    response with status 200 and such a body whose text the console
    cannot write comes out, for a client with debug on, as the generic
    [XpyunError]. *)
Lemma nonzero_code_not_always_api_error :
  ~ (forall (py_str dumps : value -> str) (release : requests_release) (out : console)
            (self : XpyunClient) (method : str) (params : option dict) (w : world)
            (r : response) (d : dict) (c : value),
        answer self method params w = Some (Responded r) ->
        content r = Json (VDict d) ->
        dict_get d (lit "code") = Some c ->
        ne_zero c = true ->
        exists e,
          fst (_make_request_on py_str dumps release out self method params w) = Raise e
          /\ exc_type e = XpyunAPIError
          /\ getattr e "code" = Some c)
  /\ fst (_make_request_on scalar_str flat_dumps Requests_since_2_27 utf8_console
            shop (lit "print") None
            (world_with (Responded (server_error (VDict printer_not_found)))))
     = Raise (PyExc XpyunNetworkError
                (msg_network_failed
                   ++ lit "500 Server Error: Internal Server Error for url: "
                   ++ BASE_URL ++ lit "/print") []
                (Some (PyExc HTTPError
                         (lit "500 Server Error: Internal Server Error for url: "
                            ++ BASE_URL ++ lit "/print") [] None)))
  /\ fst (_make_request_on scalar_str flat_dumps Requests_since_2_27 utf8_console
            (with_debug shop true) (lit "print") None
            (answering (VDict garbled_error)))
     = Raise (PyExc XpyunError
                (msg_unknown_error ++ lit ": " ++ lit "surrogates not allowed") []
                (Some encode_error)).
Proof.
  split; [|split; vm_compute; reflexivity].
  intros claim.
  destruct (claim scalar_str flat_dumps Requests_since_2_27 utf8_console
              shop (lit "print") None
              (world_with (Responded (server_error (VDict printer_not_found))))
              (server_error (VDict printer_not_found)) printer_not_found (VInt 3)
              eq_refl eq_refl eq_refl eq_refl)
    as (e & Hrun & Htype & _).
  vm_compute in Hrun. inversion Hrun; subst e. discriminate Htype.
Qed.

(** C5, as the code has it.  A response that passes the status check
    and that [response.json()] decodes to an object with [code == 0] is
    returned whole and unchanged, the parsed object itself with every
    field it came with, provided the console takes the debug lines of a
    client with debug on. *)
Theorem zero_code_returns_whole_response :
  forall (py_str dumps : value -> str) (release : requests_release) (out : console)
         (self : XpyunClient) (method : str) (params : option dict) (w : world)
         (r : response) (d : dict) (c : value),
    answer self method params w = Some (Responded r) ->
    http_error_msg r = None ->
    content r = Json (VDict d) ->
    debug_lines_taken out dumps self params w (VDict d) = true ->
    dict_get d (lit "code") = Some c ->
    ne_zero c = false ->
    fst (_make_request_on py_str dumps release out self method params w) = Ok (VDict d).
Proof.
  intros py_str dumps release out self method params w r d c Hans Hm Hc Htaken Hcode Hne.
  rewrite (debug_lines_taken_agrees py_str dumps release out self method params w r
             (VDict d) Hans Hc Htaken).
  destruct (answer_inv _ _ _ _ _ Hans) as (rd & w1 & Hp & Hremote).
  pose proof (attempt_dict py_str dumps release self method rd w1 r d Hremote Hm Hc)
    as Ha.
  rewrite Hcode, Hne in Ha.
  exact (make_request_ok py_str dumps release self method params w rd w1 _ Hp Ha).
Qed.

Lemma zero_code_returns_whole_response_witness :
  fst (_make_request_on scalar_str flat_dumps Requests_since_2_27 utf8_console
         (with_debug shop true) (lit "print") None
         (answering (VDict [(lit "code", VInt 0);
                            (lit "data", VList [VStr (lit "X"); VInt 7])])))
  = Ok (VDict [(lit "code", VInt 0); (lit "data", VList [VStr (lit "X"); VInt 7])]).
Proof.
  exact (zero_code_returns_whole_response scalar_str flat_dumps Requests_since_2_27
           utf8_console (with_debug shop true) (lit "print") None
           (answering (VDict [(lit "code", VInt 0);
                              (lit "data", VList [VStr (lit "X"); VInt 7])]))
           (ok_response (VDict [(lit "code", VInt 0);
                                (lit "data", VList [VStr (lit "X"); VInt 7])]))
           [(lit "code", VInt 0); (lit "data", VList [VStr (lit "X"); VInt 7])]
           (VInt 0)
           eq_refl eq_refl eq_refl eq_refl eq_refl eq_refl).
Defined.

(** C5, as stated, fails.  A response with status 500 whose body is the
    object [{code: 0, data: ...}] is not returned: the call raises
    [XpyunNetworkError]; and a response with status 200 and such a body
    whose text the console cannot write makes the call of a client with
    debug on raise the generic [XpyunError]. *)
Lemma zero_code_not_always_returned :
  ~ (forall (py_str dumps : value -> str) (release : requests_release) (out : console)
            (self : XpyunClient) (method : str) (params : option dict) (w : world)
            (r : response) (d : dict) (c : value),
        answer self method params w = Some (Responded r) ->
        content r = Json (VDict d) ->
        dict_get d (lit "code") = Some c ->
        ne_zero c = false ->
        fst (_make_request_on py_str dumps release out self method params w)
        = Ok (VDict d))
  /\ fst (_make_request_on scalar_str flat_dumps Requests_since_2_27 utf8_console
            shop (lit "print") None
            (world_with (Responded (server_error (VDict garbled_success)))))
     = Raise (PyExc XpyunNetworkError
                (msg_network_failed
                   ++ lit "500 Server Error: Internal Server Error for url: "
                   ++ BASE_URL ++ lit "/print") []
                (Some (PyExc HTTPError
                         (lit "500 Server Error: Internal Server Error for url: "
                            ++ BASE_URL ++ lit "/print") [] None)))
  /\ fst (_make_request_on scalar_str flat_dumps Requests_since_2_27 utf8_console
            (with_debug shop true) (lit "print") None
            (answering (VDict garbled_success)))
     = Raise (PyExc XpyunError
                (msg_unknown_error ++ lit ": " ++ lit "surrogates not allowed") []
                (Some encode_error)).
Proof.
  split; [|split; vm_compute; reflexivity].
  intros claim.
  pose proof (claim scalar_str flat_dumps Requests_since_2_27 utf8_console
                (with_debug shop true) (lit "print") None
                (answering (VDict garbled_success))
                (ok_response (VDict garbled_success)) garbled_success (VInt 0)
                eq_refl eq_refl eq_refl eq_refl) as Hrun.
  vm_compute in Hrun. discriminate Hrun.
Qed.

(* ================================================================= *)
(** ** client.py: which errors can come out *)

Lemma isinstance_api_error (e : pyexc) :
  isinstance e XpyunAPIError = true -> exc_type e = XpyunAPIError.
Proof.
  unfold isinstance. destruct (exc_type e); vm_compute; congruence.
Qed.

Lemma auth_error_is_exception (e : pyexc) :
  exc_type e = XpyunAuthError -> isinstance e Exception = true.
Proof. unfold isinstance. intros ->. reflexivity. Qed.

(** An exception that leaves the body of the [try] is either the one the
    transport raised or one of the body's own, all of which derive from
    [Exception]. *)
Lemma attempt_raise_origin py_str dumps release self method rd w e :
  fst (attempt py_str dumps release self method rd w) = Raise e ->
  remote w (length (posts w)) (request_for self method rd) = Failed e
  \/ isinstance e Exception = true.
Proof.
  intros H.
  destruct (remote w (length (posts w)) (request_for self method rd))
    as [r|e0] eqn:Hremote.
  - right. destruct (http_error_msg r) as [m|] eqn:Hm.
    + rewrite (attempt_http_error py_str dumps release self method rd w r m Hremote Hm) in H.
      inversion H. reflexivity.
    + destruct (content r) as [v|c|l c] eqn:Hc.
      * destruct v;
          try (rewrite (attempt_not_dict py_str dumps release self method rd w r _
                          Hremote Hm Hc) in H by discriminate;
               inversion H; reflexivity).
        rewrite (attempt_dict py_str dumps release self method rd w r d Hremote Hm Hc) in H.
        destruct (ne_zero _); inversion H. reflexivity.
      * rewrite (attempt_not_json py_str dumps release self method rd w r c Hremote Hm Hc) in H.
        inversion H. destruct release; reflexivity.
      * rewrite (attempt_over_limit py_str dumps release self method rd w r l c
                   Hremote Hm Hc) in H.
        inversion H. destruct l; reflexivity.
  - left. rewrite (attempt_failed py_str dumps release self method rd w e0 Hremote) in H.
    congruence.
Qed.

(** C8.  Whatever the outcome, an error that leaves [_make_request] is
    never an [XpyunAuthError]; and when the request went out and the
    transport raised nothing outside [Exception], the error is an
    [XpyunAPIError], an [XpyunNetworkError] or a plain [XpyunError]. *)
Theorem dispatcher_never_raises_auth_error :
  forall (py_str dumps : value -> str) (release : requests_release)
         (self : XpyunClient) (method : str) (params : option dict) (w : world)
         (e : pyexc),
    fst (_make_request py_str dumps release self method params w) = Raise e ->
    exc_type e <> XpyunAuthError
    /\ (forall o,
          answer self method params w = Some o ->
          (forall e0, o = Failed e0 -> isinstance e0 Exception = true) ->
          In (exc_type e) dispatcher_errors).
Proof.
  intros py_str dumps release self method params w e Hrun.
  destruct (prepare_request_data self params w) as [[rd|e1] w1] eqn:Hp.
  - destruct (fst (attempt py_str dumps release self method rd w1)) as [v|e0] eqn:Ha.
    + rewrite (make_request_ok py_str dumps release self method params w rd w1 v Hp Ha)
        in Hrun. discriminate.
    + rewrite (make_request_raise py_str dumps release self method params w rd w1 e0 Hp Ha)
        in Hrun.
      pose proof (attempt_raise_origin _ _ _ _ _ _ _ _ Ha) as Horigin.
      destruct (isinstance e0 RequestException);
        [inversion Hrun; split; [discriminate | intros; cbn; tauto]|].
      destruct (isinstance e0 JSONDecodeError);
        [inversion Hrun; split; [discriminate | intros; cbn; tauto]|].
      destruct (isinstance e0 XpyunAPIError) eqn:Hapi.
      { inversion Hrun; subst e0. rewrite (isinstance_api_error _ Hapi).
        split; [discriminate | intros; cbn; tauto]. }
      destruct (isinstance e0 Exception) eqn:Hexc;
        [inversion Hrun; split; [discriminate | intros; cbn; tauto]|].
      inversion Hrun; subst e0. split.
      * intros Hauth. apply auth_error_is_exception in Hauth. congruence.
      * intros o Hans Hfail. unfold answer in Hans. rewrite Hp in Hans.
        inversion Hans; subst o; clear Hans.
        destruct Horigin as [Hremote|Habs]; [|congruence].
        specialize (Hfail e Hremote). congruence.
  - rewrite (make_request_unprepared py_str dumps release self method params w e1 w1 Hp)
      in Hrun.
    inversion Hrun; subst e1; clear Hrun. split.
    + rewrite prepare_run in Hp. destruct (encode_utf8 _); inversion Hp. discriminate.
    + intros o Hans. unfold answer in Hans. rewrite Hp in Hans. discriminate.
Qed.

Lemma dispatcher_never_raises_auth_error_witness :
  exc_type (PyExc XpyunError (msg_unknown_error ++ lit ": " ++ lit "no credentials") []
              (Some (PyExc XpyunAuthError (lit "no credentials") [] None)))
  <> XpyunAuthError
  /\ In XpyunError dispatcher_errors.
Proof.
  destruct (dispatcher_never_raises_auth_error scalar_str scalar_str Requests_since_2_27
              shop (lit "print") None
              (world_with (Failed (PyExc XpyunAuthError (lit "no credentials") [] None)))
              (PyExc XpyunError (msg_unknown_error ++ lit ": " ++ lit "no credentials") []
                 (Some (PyExc XpyunAuthError (lit "no credentials") [] None)))
              eq_refl) as [Hnot Hkind].
  split; [exact Hnot|].
  exact (Hkind (Failed (PyExc XpyunAuthError (lit "no credentials") [] None))
               eq_refl
               (fun e0 Heq => match Heq in (_ = o)
                                    return match o with
                                           | Failed e1 => isinstance e1 Exception = true
                                           | Responded _ => True
                                           end
                              with eq_refl => eq_refl end)).
Defined.

(* ================================================================= *)
(** ** client.py: a body without [code] *)

Lemma ne_zero_int (z : Z) : ne_zero (VInt z) = false <-> z = 0%Z.
Proof.
  cbn. rewrite negb_false_iff. apply Z.eqb_eq.
Qed.

(** The values Python's [!=] does not tell from [0]. *)
Lemma ne_zero_false (c : value) :
  ne_zero c = false
  <-> c = VInt 0 \/ c = VBool false
      \/ exists f, c = VFloat f /\ PrimFloat.eqb f 0%float = true.
Proof.
  split.
  - destruct c as [|b|z|f|s|l|d]; cbn; intros H; try discriminate H.
    + right. left. now subst b.
    + left. apply negb_false_iff, Z.eqb_eq in H. now subst z.
    + right. right. exists f. split; [reflexivity|]. now apply negb_false_iff in H.
  - intros [-> | [-> | (f & -> & Hf)]]; cbn; [reflexivity|reflexivity|].
    now rewrite Hf.
Qed.

(** C9, as the code has it.  (1) A response that passes the status
    check and that [response.json()] decodes to an object without a
    [code] field comes out as [XpyunAPIError] with [code] [None], the
    default message unless [msg] is there, and the response's [data] or
    [None], provided the console takes the debug lines of a client with
    debug on.  (2) A call returns only what a response that passed the
    status check decoded to: an object whose [code] is present and equal
    to 0 in Python's sense.  (3) The values equal to 0 in that sense are
    the integer 0, [False] and a float equal to zero. *)
Theorem missing_code_is_api_error_for_objects :
  forall (py_str dumps : value -> str) (release : requests_release) (out : console)
         (self : XpyunClient) (method : str) (params : option dict) (w : world),
    (forall r d,
        answer self method params w = Some (Responded r) ->
        http_error_msg r = None ->
        content r = Json (VDict d) ->
        debug_lines_taken out dumps self params w (VDict d) = true ->
        dict_get d (lit "code") = None ->
        exists e,
          fst (_make_request_on py_str dumps release out self method params w) = Raise e
          /\ exc_type e = XpyunAPIError
          /\ getattr e "code" = Some VNone
          /\ getattr e "message"
             = Some (match dict_get d (lit "msg") with
                     | Some m => m
                     | None => VStr msg_unknown_error
                     end)
          /\ getattr e "data"
             = Some (match dict_get d (lit "data") with
                     | Some x => x
                     | None => VNone
                     end))
    /\ (forall v,
          fst (_make_request_on py_str dumps release out self method params w) = Ok v ->
          exists r d c,
            answer self method params w = Some (Responded r)
            /\ http_error_msg r = None
            /\ content r = Json (VDict d) /\ v = VDict d
            /\ dict_get d (lit "code") = Some c /\ ne_zero c = false)
    /\ (forall c,
          ne_zero c = false
          <-> c = VInt 0 \/ c = VBool false
              \/ exists f, c = VFloat f /\ PrimFloat.eqb f 0%float = true).
Proof.
  intros py_str dumps release out self method params w.
  split; [|split].
  - intros r d Hans Hm Hc Htaken Hcode.
    rewrite (debug_lines_taken_agrees py_str dumps release out self method params w r
               (VDict d) Hans Hc Htaken).
    destruct (answer_inv _ _ _ _ _ Hans) as (rd & w1 & Hp & Hremote).
    pose proof (attempt_dict py_str dumps release self method rd w1 r d Hremote Hm Hc)
      as Ha.
    rewrite Hcode in Ha. cbn [ne_zero] in Ha.
    eexists. split.
    + rewrite (make_request_raise py_str dumps release self method params w rd w1 _ Hp Ha).
      reflexivity.
    + repeat split.
  - intros v Hrun.
    destruct (prepare_request_data self params w) as [[rd|e1] w1] eqn:Hp.
    + rewrite (make_request_on_prepared py_str dumps release out self method params w
                 rd w1 Hp) in Hrun.
      destruct (fst (attempt_on py_str dumps release out self method rd w1))
        as [v0|e0] eqn:Ha.
      * rewrite (dispatch_ok _ _ _ Ha) in Hrun. inversion Hrun; subst v0; clear Hrun.
        destruct (attempt_on_ok_inv py_str dumps release out self method rd w1 v Ha)
          as (r & d & c & Hremote & Hm & Hc & Hv & Hcode & Hne).
        exists r, d, c. repeat split; try assumption.
        unfold answer. rewrite Hp. unfold request_for in Hremote. now rewrite Hremote.
      * rewrite (dispatch_raise _ _ _ Ha) in Hrun.
        destruct (isinstance e0 RequestException); [discriminate|].
        destruct (isinstance e0 JSONDecodeError); [discriminate|].
        destruct (isinstance e0 XpyunAPIError); [discriminate|].
        destruct (isinstance e0 Exception); discriminate.
    + rewrite (make_request_on_unprepared py_str dumps release out self method params w
                 e1 w1 Hp) in Hrun.
      discriminate.
  - apply ne_zero_false.
Qed.

Lemma missing_code_is_api_error_for_objects_witness :
  exists e,
    fst (_make_request_on scalar_str flat_dumps Requests_since_2_27 utf8_console
           (with_debug shop true) (lit "print") None
           (answering (VDict [(lit "msg", VStr (lit "ok"))]))) = Raise e
    /\ exc_type e = XpyunAPIError
    /\ getattr e "code" = Some VNone
    /\ getattr e "message" = Some (VStr (lit "ok"))
    /\ getattr e "data" = Some VNone.
Proof.
  exact (proj1 (missing_code_is_api_error_for_objects scalar_str flat_dumps
                  Requests_since_2_27 utf8_console (with_debug shop true)
                  (lit "print") None
                  (answering (VDict [(lit "msg", VStr (lit "ok"))])))
               (ok_response (VDict [(lit "msg", VStr (lit "ok"))]))
               [(lit "msg", VStr (lit "ok"))]
               eq_refl eq_refl eq_refl eq_refl eq_refl).
Defined.

(** C9, as stated, fails.  An object without [code] behind status 500
    comes out as [XpyunNetworkError]; behind status 200, with text the
    console cannot write, it comes out as the generic [XpyunError] for a
    client with debug on; and the object [{code: false}] is returned as a
    success although its [code] is not the number 0. *)
Lemma missing_code_not_always_api_error :
  ~ (forall (py_str dumps : value -> str) (release : requests_release) (out : console)
            (self : XpyunClient) (method : str) (params : option dict) (w : world)
            (r : response) (d : dict),
        answer self method params w = Some (Responded r) ->
        content r = Json (VDict d) ->
        dict_get d (lit "code") = None ->
        exists e,
          fst (_make_request_on py_str dumps release out self method params w) = Raise e
          /\ exc_type e = XpyunAPIError
          /\ getattr e "code" = Some VNone)
  /\ ~ (forall (py_str dumps : value -> str) (release : requests_release) (out : console)
               (self : XpyunClient) (method : str) (params : option dict) (w : world)
               (v : value),
           fst (_make_request_on py_str dumps release out self method params w) = Ok v ->
           exists d, v = VDict d /\ dict_get d (lit "code") = Some (VInt 0))
  /\ fst (_make_request_on scalar_str flat_dumps Requests_since_2_27 utf8_console
            shop (lit "print") None
            (world_with (Responded (server_error (VDict garbled_plain)))))
     = Raise (PyExc XpyunNetworkError
                (msg_network_failed
                   ++ lit "500 Server Error: Internal Server Error for url: "
                   ++ BASE_URL ++ lit "/print") []
                (Some (PyExc HTTPError
                         (lit "500 Server Error: Internal Server Error for url: "
                            ++ BASE_URL ++ lit "/print") [] None)))
  /\ fst (_make_request_on scalar_str flat_dumps Requests_since_2_27 utf8_console
            (with_debug shop true) (lit "print") None
            (answering (VDict garbled_plain)))
     = Raise (PyExc XpyunError
                (msg_unknown_error ++ lit ": " ++ lit "surrogates not allowed") []
                (Some encode_error))
  /\ fst (_make_request_on scalar_str flat_dumps Requests_since_2_27 utf8_console
            shop (lit "print") None
            (answering (VDict [(lit "code", VBool false)])))
     = Ok (VDict [(lit "code", VBool false)]).
Proof.
  split; [|split; [|repeat split; vm_compute; reflexivity]].
  - intros claim.
    destruct (claim scalar_str flat_dumps Requests_since_2_27 utf8_console
                shop (lit "print") None
                (world_with (Responded (server_error (VDict garbled_plain))))
                (server_error (VDict garbled_plain)) garbled_plain
                eq_refl eq_refl eq_refl)
      as (e & Hrun & Htype & _).
    vm_compute in Hrun. inversion Hrun; subst e. discriminate Htype.
  - intros claim.
    destruct (claim scalar_str flat_dumps Requests_since_2_27 utf8_console
                shop (lit "print") None
                (answering (VDict [(lit "code", VBool false)]))
                (VDict [(lit "code", VBool false)]))
      as (d & Hv & Hcode).
    + vm_compute. reflexivity.
    + inversion Hv; subst d. vm_compute in Hcode. discriminate Hcode.
Qed.

(* ================================================================= *)
(** ** The dispatcher seen from its callers *)

Lemma good_credentials_encode (self : XpyunClient) (w : world) :
  good_credentials self = true ->
  exists data,
    encode_utf8 (user (auth self) ++ user_key (auth self) ++ timestamp_at w)
    = Some data
    /\ sign_at self w = SHA1.hexdigest (SHA1.sha1 data).
Proof.
  unfold good_credentials. intros H. apply andb_true_iff in H. destruct H as [Hu Hk].
  destruct (credentials_encode (auth self) (timestamp_at w) Hu Hk
              (encodable_str_of_int _)) as [data Hdata].
  exists data. split; [exact Hdata|]. unfold sign_at. now rewrite Hdata.
Qed.




(** X1.  Called without a timestamp, [generate_sign] reads the clock
    once and signs the decimal text of that reading: the result is the
    40-character signature that [get_auth_params] puts next to that same
    timestamp. *)
Theorem generate_sign_without_timestamp :
  forall (self : XpyunAuth) (w : world),
    encodable (user self) = true ->
    encodable (user_key self) = true ->
    exists sign,
      generate_sign self None w = (Ok sign, tick w)
      /\ length sign = 40%nat
      /\ generate_sign self (Some (timestamp_at w)) w = (Ok sign, w)
      /\ get_auth_params self w
         = (Ok [(lit "user", VStr (user self));
                (lit "timestamp", VStr (timestamp_at w));
                (lit "sign", VStr sign)], tick w).
Proof.
  intros self w Hu Hk.
  destruct (credentials_encode self (timestamp_at w) Hu Hk (encodable_str_of_int _))
    as [data Hdata].
  exists (SHA1.hexdigest (SHA1.sha1 data)).
  assert (Hgiven : generate_sign self (Some (timestamp_at w)) (tick w)
                   = (Ok (SHA1.hexdigest (SHA1.sha1 data)), tick w))
    by now rewrite generate_sign_given, Hdata.
  split; [|split; [apply hexdigest_length|split]].
  - unfold generate_sign in *. unfold bind at 1. unfold bind at 1.
    unfold time_seconds at 1. fold (timestamp_at w). fold (tick w).
    unfold ret at 1. unfold bind at 1 in Hgiven. unfold ret at 1 in Hgiven.
    exact Hgiven.
  - now rewrite generate_sign_given, Hdata.
  - now rewrite get_auth_params_run, Hdata.
Qed.

Lemma generate_sign_without_timestamp_witness :
  generate_sign (auth shop) None (world_with (Failed (PyExc Timeout [] [] None)))
  = (Ok golden_sign, tick (world_with (Failed (PyExc Timeout [] [] None)))).
Proof.
  destruct (generate_sign_without_timestamp (auth shop)
              (world_with (Failed (PyExc Timeout [] [] None))) eq_refl eq_refl)
    as (sign & Hnone & _ & Hgiven & _).
  rewrite Hnone. f_equal. f_equal.
  assert (Hgold : generate_sign (auth shop)
                    (Some (timestamp_at (world_with (Failed (PyExc Timeout [] [] None)))))
                    (world_with (Failed (PyExc Timeout [] [] None)))
                  = (Ok golden_sign, world_with (Failed (PyExc Timeout [] [] None))))
    by (vm_compute; reflexivity).
  rewrite Hgiven in Hgold. congruence.
Defined.

Lemma surrogate_not_encodable (s : str) :
  existsb is_surrogate s = true -> encode_utf8 s = None.
Proof.
  induction s as [|c s IH]; cbn [existsb encode_utf8]; [discriminate|].
  intros H. apply orb_true_iff in H. destruct H as [Hc|Hs].
  - assert (Hchar : utf8_char c = None).
    { unfold utf8_char. rewrite Hc. unfold is_surrogate in Hc.
      apply andb_true_iff in Hc. destruct Hc as [Hlo Hhi]. apply N.leb_le in Hlo.
      destruct (N.ltb_spec c 0x80); [lia|].
      destruct (N.ltb_spec c 0x800); [lia|]. reflexivity. }
    now rewrite Hchar.
  - rewrite (IH Hs). destruct (utf8_char c); reflexivity.
Qed.

(** X2.  Credentials that hold a lone surrogate cannot be signed: the
    call ends with the codec's [UnicodeEncodeError], raised before the
    [try], so it is not turned into an [XpyunError]; one clock reading is
    taken and nothing is posted or printed. *)
Theorem unencodable_credentials_escape :
  forall (py_str dumps : value -> str) (release : requests_release)
         (self : XpyunClient) (method : str) (params : option dict) (w : world),
    existsb is_surrogate (user (auth self) ++ user_key (auth self)) = true ->
    _make_request py_str dumps release self method params w
    = (Raise encode_error, tick w)
    /\ exc_type encode_error = UnicodeEncodeError
    /\ isinstance encode_error XpyunError = false.
Proof.
  intros py_str dumps release self method params w H.
  split; [|split; reflexivity].
  apply make_request_unprepared. rewrite prepare_run.
  assert (Hnone : encode_utf8 (user (auth self) ++ user_key (auth self) ++ timestamp_at w)
                  = None).
  { rewrite app_assoc, encode_utf8_app, (surrogate_not_encodable _ H). reflexivity. }
  now rewrite Hnone.
Qed.

Lemma unencodable_credentials_escape_witness :
  _make_request scalar_str scalar_str Requests_since_2_27 broken_shop (lit "print") None
    (answering (VDict [(lit "code", VInt 0)]))
  = (Raise encode_error, tick (answering (VDict [(lit "code", VInt 0)]))).
Proof.
  exact (proj1 (unencodable_credentials_escape scalar_str scalar_str
                  Requests_since_2_27 broken_shop (lit "print") None
                  (answering (VDict [(lit "code", VInt 0)])) eq_refl)).
Defined.

(** The body of the [try] leaves the clock and the remote side alone. *)
Lemma attempt_frame py_str dumps release self method rd w :
  clock (snd (attempt py_str dumps release self method rd w)) = clock w
  /\ clock_reads (snd (attempt py_str dumps release self method rd w)) = clock_reads w
  /\ remote (snd (attempt py_str dumps release self method rd w)) = remote w.
Proof.
  unfold attempt, bind, session_post.
  destruct (debug self); cbn;
    (destruct (remote w _ _) as [r|e]; cbn; [|auto];
     unfold raise_for_status; destruct (http_error_msg r); cbn; [auto|];
     unfold Response_json; destruct (content r) as [v|c|l c]; cbn; [|auto|auto];
     destruct v; cbn; auto;
     destruct (ne_zero _); auto).
Qed.

(** The [except] clauses of the dispatcher do not touch the world. *)
Lemma dispatch_world py_str dumps release self method rd w :
  snd (try_except (attempt py_str dumps release self method rd) handlers w)
  = snd (attempt py_str dumps release self method rd w).
Proof.
  unfold try_except.
  destruct (attempt py_str dumps release self method rd w) as [[a|e] w1];
    [reflexivity|].
  unfold handlers, select.
  destruct (isinstance e RequestException); [reflexivity|].
  destruct (isinstance e JSONDecodeError); [reflexivity|].
  destruct (isinstance e XpyunAPIError); [reflexivity|].
  destruct (isinstance e Exception); reflexivity.
Qed.






(* ================================================================= *)
(** ** client.py: the API methods *)



(* ================================================================= *)
(** ** print_service.py *)







(* ================================================================= *)
(** ** printer_manager.py *)








(** X11.  [get_printer_info] never lets an SDK error out: an error of
    class [XpyunError] or below from the status query (failed validation,
    API error, network error, generic error) is answered with the
    "unknown" record, and whatever exception does leave the method is not
    an [XpyunError]. *)
Theorem get_printer_info_swallows_sdk_errors :
  forall (py_str dumps : value -> str) (release : requests_release)
         (self : PrinterManager.t) (sn : str) (w : world),
    (forall e,
        fst (PrinterManager.get_printer_info py_str dumps release self sn w) = Raise e ->
        isinstance e XpyunError = false)
    /\ (forall e w',
          PrinterManager.get_printer_status py_str dumps release self sn w = (Raise e, w') ->
          isinstance e XpyunError = true ->
          PrinterManager.get_printer_info py_str dumps release self sn w
          = (Ok (PrinterManager.unknown_info sn), w'))
    /\ (sn = [] ->
        PrinterManager.get_printer_info py_str dumps release self sn w
        = (Ok (PrinterManager.unknown_info []), w)).
Proof.
  intros py_str dumps release self sn w.
  unfold PrinterManager.get_printer_info, try_except.
  split; [|split].
  - intros e.
    match goal with
    | |- context [match ?body w with _ => _ end] => destruct (body w) as [[a|e0] w1]
    end; cbn [fst]; [discriminate|].
    cbn [select]. destruct (isinstance e0 XpyunError) eqn:Hcls; cbn; [discriminate|].
    intros Heq. inversion Heq; subst. exact Hcls.
  - intros e w' Hstatus Hcls. unfold bind at 1. rewrite Hstatus.
    cbn [select]. now rewrite Hcls.
  - intros ->. reflexivity.
Qed.

Lemma get_printer_info_swallows_sdk_errors_witness :
  PrinterManager.get_printer_info scalar_str scalar_str Requests_since_2_27
    (PrinterManager.Build shop) (lit "SN1") (answering (VDict printer_not_found))
  = (Ok (PrinterManager.unknown_info (lit "SN1")),
     snd (PrinterManager.get_printer_status scalar_str scalar_str Requests_since_2_27
            (PrinterManager.Build shop) (lit "SN1")
            (answering (VDict printer_not_found))))
  /\ isinstance
       (PyExc AttributeError (lit "'str' object has no attribute 'get'") [] None)
       XpyunError = false.
Proof.
  destruct (get_printer_info_swallows_sdk_errors scalar_str scalar_str
              Requests_since_2_27 (PrinterManager.Build shop) (lit "SN1")
              (answering (VDict printer_not_found))) as (_ & Hfallback & _).
  split.
  - apply (Hfallback (XpyunAPIError_init scalar_str (VInt 3)
                        (VStr (lit "printer not found")) VNone));
      vm_compute; reflexivity.
  - exact (proj1 (get_printer_info_swallows_sdk_errors scalar_str scalar_str
                    Requests_since_2_27 (PrinterManager.Build shop) (lit "SN1")
                    (answering (VDict [(lit "code", VInt 0);
                                       (lit "data", VStr (lit "online"))])))
                 (PyExc AttributeError (lit "'str' object has no attribute 'get'") [] None)
                 eq_refl).
Defined.

Lemma call_get_dict (d : dict) (k : str) (default : value) :
  call_get (VDict d) k default = ret (get_or d k default).
Proof. reflexivity. Qed.

(** X12.  When the status query succeeds, [get_printer_info] reads the
    answer's [data]: absent or falsy [data] gives [is_online] [False] and
    queue status "unknown"; a non-empty object gives its [connected]
    (default [False]) and its [queue_status] (default "normal"); any
    other truthy [data] makes the method fail with [AttributeError],
    which its handler does not catch. *)
Theorem get_printer_info_reads_data :
  forall (py_str dumps : value -> str) (release : requests_release)
         (self : PrinterManager.t) (sn : str) (w w' : world) (resp : dict),
    PrinterManager.get_printer_status py_str dumps release self sn w
    = (Ok (VDict resp), w') ->
    (py_truthy (get_or_none resp (lit "data")) = false ->
     PrinterManager.get_printer_info py_str dumps release self sn w
     = (Ok (VDict [(lit "sn", VStr sn);
                   (lit "status", get_or_none resp (lit "data"));
                   (lit "is_online", VBool false);
                   (lit "queue_status", VStr (lit "unknown"))]), w'))
    /\ (forall d,
          get_or_none resp (lit "data") = VDict d -> d <> [] ->
          PrinterManager.get_printer_info py_str dumps release self sn w
          = (Ok (VDict [(lit "sn", VStr sn);
                        (lit "status", VDict d);
                        (lit "is_online", get_or d (lit "connected") (VBool false));
                        (lit "queue_status",
                         get_or d (lit "queue_status") (VStr (lit "normal")))]), w'))
    /\ (py_truthy (get_or_none resp (lit "data")) = true ->
        (forall d, get_or_none resp (lit "data") <> VDict d) ->
        exists e,
          PrinterManager.get_printer_info py_str dumps release self sn w = (Raise e, w')
          /\ exc_type e = AttributeError).
Proof.
  intros py_str dumps release self sn w w' resp Hstatus.
  split; [|split];
    (unfold PrinterManager.get_printer_info, try_except;
     unfold bind at 1; rewrite Hstatus;
     unfold PrinterManager._is_printer_online, PrinterManager._get_queue_status;
     rewrite !call_get_dict; unfold bind, ret;
     change (get_or resp (lit "data") VNone) with (get_or_none resp (lit "data"))).
  - intros Hfalsy. rewrite !Hfalsy. reflexivity.
  - intros d Hd Hne. rewrite !Hd. destruct d as [|kv d]; [congruence|]. reflexivity.
  - intros Htruthy Hnot. rewrite !Htruthy. cbn [negb].
    destruct (get_or_none resp (lit "data")) as [| b | z | f | s | l | d] eqn:Hdata;
      try (eexists; split; reflexivity).
    exfalso. exact (Hnot d eq_refl).
Qed.

Lemma get_printer_info_reads_data_witness :
  PrinterManager.get_printer_info scalar_str scalar_str Requests_since_2_27
    (PrinterManager.Build shop) (lit "SN1")
    (answering (VDict [(lit "code", VInt 0);
                       (lit "data", VDict [(lit "connected", VBool true)])]))
  = (Ok (VDict [(lit "sn", VStr (lit "SN1"));
                (lit "status", VDict [(lit "connected", VBool true)]);
                (lit "is_online", VBool true);
                (lit "queue_status", VStr (lit "normal"))]),
     snd (PrinterManager.get_printer_status scalar_str scalar_str Requests_since_2_27
            (PrinterManager.Build shop) (lit "SN1")
            (answering (VDict [(lit "code", VInt 0);
                               (lit "data", VDict [(lit "connected", VBool true)])])))).
Proof.
  refine (proj1 (proj2 (get_printer_info_reads_data scalar_str scalar_str
                          Requests_since_2_27 (PrinterManager.Build shop) (lit "SN1")
                          (answering (VDict [(lit "code", VInt 0);
                                             (lit "data",
                                              VDict [(lit "connected", VBool true)])]))
                          _
                          [(lit "code", VInt 0);
                           (lit "data", VDict [(lit "connected", VBool true)])]
                          _))
                [(lit "connected", VBool true)] eq_refl _).
  - vm_compute. reflexivity.
  - discriminate.
Defined.

(* ================================================================= *)
(** ** query_service.py: the parsers *)

Lemma count_online_split (printers : list dict) :
  (QueryService.count_online (fun b => b) printers
   + QueryService.count_online negb printers
   = Z.of_nat (length printers))%Z
  /\ (0 <= QueryService.count_online (fun b => b) printers)%Z
  /\ (0 <= QueryService.count_online negb printers)%Z.
Proof.
  unfold QueryService.count_online. split; [|split; apply Nat2Z.is_nonneg].
  rewrite <- Nat2Z.inj_add. f_equal.
  induction printers as [|p ps IH]; [reflexivity|].
  cbn [filter length].
  destruct (py_truthy (get_or_none p (lit "is_online"))); cbn [negb length]; lia.
Qed.

Lemma collect_printers_ok (items : dict) :
  forall (w w' : world) (printers : list dict),
    QueryService.collect_printers items w = (Ok printers, w') ->
    w' = w
    /\ length printers = length items
    /\ map (fun p => dict_get p (lit "sn")) printers
       = map (fun kv => Some (VStr (fst kv))) items
    /\ Forall (fun kv => exists d, snd kv = VDict d) items.
Proof.
  induction items as [|[sn status] items IH]; intros w w' printers H.
  - cbn in H. inversion H. repeat split; constructor.
  - cbn [QueryService.collect_printers] in H.
    destruct status; try discriminate H.
    rewrite !call_get_dict in H. unfold bind, ret in H. fold (@ret (list dict)) in H.
    destruct (QueryService.collect_printers items w) as [[ps|e] w1] eqn:Hrest;
      [|discriminate H].
    inversion H; subst; clear H.
    destruct (IH _ _ _ Hrest) as (Hw & Hlen & Hsn & Hall).
    repeat split;
      [exact Hw | cbn [length]; now rewrite Hlen | cbn [map]; rewrite Hsn; reflexivity |].
    constructor; [eexists; reflexivity | exact Hall].
Qed.

Lemma collect_printers_total (items : dict) (w : world) :
  Forall (fun kv => exists d, snd kv = VDict d) items ->
  exists printers, QueryService.collect_printers items w = (Ok printers, w).
Proof.
  induction 1 as [|[sn status] items [d Hd] Hall [ps IH]].
  - eexists. reflexivity.
  - cbn in Hd. subst status. cbn [QueryService.collect_printers].
    rewrite !call_get_dict. unfold bind, ret. fold (@ret (list dict)).
    rewrite IH. eexists. reflexivity.
Qed.

(** X13.  Whenever [_parse_printers_status] returns, its counters add
    up: [total] is the number of entries of the answer's [data],
    [online_count] and [offline_count] are not negative and sum to
    [total], and the records follow the entries in order.  It returns
    whenever [data] is an object (or absent) all of whose values are
    objects. *)
Theorem parse_printers_status_counts :
  forall (api_response : value) (w : world),
    (forall out w',
        QueryService._parse_printers_status api_response w = (Ok out, w') ->
        exists resp items printers online offline,
          w' = w
          /\ api_response = VDict resp
          /\ get_or resp (lit "data") (VDict []) = VDict items
          /\ out = VDict [(lit "total", VInt (Z.of_nat (length items)));
                          (lit "online_count", VInt online);
                          (lit "offline_count", VInt offline);
                          (lit "printers", VList (map VDict printers))]
          /\ (online + offline = Z.of_nat (length items))%Z
          /\ (0 <= online)%Z /\ (0 <= offline)%Z
          /\ map (fun p => dict_get p (lit "sn")) printers
             = map (fun kv => Some (VStr (fst kv))) items)
    /\ (forall resp items,
          api_response = VDict resp ->
          get_or resp (lit "data") (VDict []) = VDict items ->
          Forall (fun kv => exists d, snd kv = VDict d) items ->
          exists out, QueryService._parse_printers_status api_response w = (Ok out, w)).
Proof.
  intros api_response w. split.
  - intros out w' H. unfold QueryService._parse_printers_status in H.
    destruct api_response as [| | | | | | resp]; try discriminate H.
    rewrite call_get_dict in H. unfold bind at 1 in H. unfold ret at 1 in H.
    destruct (get_or resp (lit "data") (VDict [])) as [| | | | | | items] eqn:Hdata;
      try discriminate H.
    unfold bind at 1 in H. cbn [call_items] in H. unfold ret at 1 in H.
    unfold bind in H.
    destruct (QueryService.collect_printers items w) as [[printers|e] w1] eqn:Hcollect;
      [|discriminate H].
    unfold ret in H. inversion H; subst; clear H.
    destruct (collect_printers_ok _ _ _ _ Hcollect) as (Hw & Hlen & Hsn & _).
    destruct (count_online_split printers) as (Hsum & Hon & Hoff).
    exists resp, items, printers, (QueryService.count_online (fun b => b) printers),
      (QueryService.count_online negb printers).
    rewrite <- Hlen. repeat split; auto.
  - intros resp items -> Hdata Hall.
    unfold QueryService._parse_printers_status.
    rewrite call_get_dict. unfold bind at 1. unfold ret at 1. rewrite Hdata.
    unfold bind at 1. cbn [call_items]. unfold ret at 1. unfold bind.
    destruct (collect_printers_total items w Hall) as [printers ->].
    eexists. reflexivity.
Qed.

Lemma parse_printers_status_counts_witness :
  exists out,
    QueryService._parse_printers_status
      (VDict [(lit "code", VInt 0);
              (lit "data",
               VDict [(lit "SN1", VDict [(lit "connected", VBool true)]);
                      (lit "SN2", VDict []);
                      (lit "SN3", VDict [(lit "connected", VInt 1)])])])
      (answering VNone)
    = (Ok out, answering VNone)
    /\ dict_get (match out with VDict d => d | _ => [] end) (lit "total")
       = Some (VInt 3)
    /\ dict_get (match out with VDict d => d | _ => [] end) (lit "online_count")
       = Some (VInt 2)
    /\ dict_get (match out with VDict d => d | _ => [] end) (lit "offline_count")
       = Some (VInt 1).
Proof.
  destruct (proj2 (parse_printers_status_counts
                     (VDict [(lit "code", VInt 0);
                             (lit "data",
                              VDict [(lit "SN1", VDict [(lit "connected", VBool true)]);
                                     (lit "SN2", VDict []);
                                     (lit "SN3", VDict [(lit "connected", VInt 1)])])])
                     (answering VNone))
                  _ _ eq_refl eq_refl
                  ltac:(repeat constructor; eexists; reflexivity))
    as [out Hout].
  exists out. split; [exact Hout|].
  vm_compute in Hout. inversion Hout. repeat split.
Defined.

Lemma completed_excludes_failed (v : value) :
  eq_str v (lit "completed") && eq_str v (lit "failed") = false.
Proof.
  destruct v; try reflexivity. cbn [eq_str].
  destruct (str_eqb s (lit "completed")) eqn:Hc; [|reflexivity].
  apply str_eqb_eq in Hc. subst s. reflexivity.
Qed.

(** X14.  [_parse_order_status] on an answer without [data] gives a
    record of [None]s with both flags [False]; on an answer whose [data]
    is an object, [is_completed] and [is_failed] tell whether [state] is
    the text "completed", respectively "failed" (never both), and
    [raw_data] is that object; on any other [data], [null] included, it
    fails with [AttributeError]. *)
Theorem parse_order_status_cases :
  forall (resp : dict) (w : world),
    (dict_get resp (lit "data") = None ->
     QueryService._parse_order_status (VDict resp) w
     = (Ok (VDict [(lit "order_id", VNone);
                   (lit "status", VNone);
                   (lit "print_status", VNone);
                   (lit "print_time", VNone);
                   (lit "printer_sn", VNone);
                   (lit "is_completed", VBool false);
                   (lit "is_failed", VBool false);
                   (lit "raw_data", VDict [])]), w))
    /\ (forall d,
          dict_get resp (lit "data") = Some (VDict d) ->
          exists out,
            QueryService._parse_order_status (VDict resp) w = (Ok (VDict out), w)
            /\ dict_get out (lit "order_id") = Some (get_or_none d (lit "orderId"))
            /\ dict_get out (lit "status") = Some (get_or_none d (lit "state"))
            /\ dict_get out (lit "is_completed")
               = Some (VBool (eq_str (get_or_none d (lit "state")) (lit "completed")))
            /\ dict_get out (lit "is_failed")
               = Some (VBool (eq_str (get_or_none d (lit "state")) (lit "failed")))
            /\ eq_str (get_or_none d (lit "state")) (lit "completed")
               && eq_str (get_or_none d (lit "state")) (lit "failed") = false
            /\ dict_get out (lit "raw_data") = Some (VDict d))
    /\ (forall v,
          dict_get resp (lit "data") = Some v ->
          (forall d, v <> VDict d) ->
          QueryService._parse_order_status (VDict resp) w
          = (Raise (PyExc AttributeError
                      (lit "'" ++ type_name v ++ lit "' object has no attribute 'get'")
                      [] None), w)).
Proof.
  intros resp w.
  split; [|split];
    (unfold QueryService._parse_order_status;
     rewrite call_get_dict; unfold bind at 1; unfold ret at 1; unfold get_or).
  - intros ->. reflexivity.
  - intros d ->. rewrite !call_get_dict. unfold bind, ret.
    eexists. split; [reflexivity|].
    repeat split; try reflexivity. apply completed_excludes_failed.
  - intros v -> Hnot.
    destruct v; try reflexivity. exfalso. exact (Hnot d eq_refl).
Qed.

Lemma parse_order_status_cases_witness :
  QueryService._parse_order_status (VDict [(lit "code", VInt 0); (lit "data", VNone)])
    (answering VNone)
  = (Raise (PyExc AttributeError
              (lit "'NoneType' object has no attribute 'get'") [] None),
     answering VNone)
  /\ QueryService._parse_order_status (VDict [(lit "code", VInt 0)]) (answering VNone)
     = (Ok (VDict [(lit "order_id", VNone);
                   (lit "status", VNone);
                   (lit "print_status", VNone);
                   (lit "print_time", VNone);
                   (lit "printer_sn", VNone);
                   (lit "is_completed", VBool false);
                   (lit "is_failed", VBool false);
                   (lit "raw_data", VDict [])]), answering VNone).
Proof.
  destruct (parse_order_status_cases [(lit "code", VInt 0); (lit "data", VNone)]
              (answering VNone)) as (_ & _ & Hbad).
  destruct (parse_order_status_cases [(lit "code", VInt 0)] (answering VNone))
    as (Hmissing & _ & _).
  split.
  - exact (Hbad VNone eq_refl ltac:(discriminate)).
  - exact (Hmissing eq_refl).
Defined.

(** X15.  [QueryService.is_printer_online] refuses an empty printer
    number; when the status query succeeds it returns the [connected]
    field of the answer's [data] exactly as the server sent it, and
    [False] when [data] or [connected] is absent. *)
Theorem is_printer_online_reads_connected :
  forall (py_str dumps : value -> str) (release : requests_release)
         (self : QueryService.t) (sn : str) (w : world),
    (sn = [] ->
     QueryService.is_printer_online py_str dumps release self sn w
     = (Raise (PyExc XpyunError msg_sn_empty [] None), w))
    /\ (forall resp w',
          sn <> [] ->
          Client.query_printer_status py_str dumps release (QueryService.client self) sn w
          = (Ok (VDict resp), w') ->
          (dict_get resp (lit "data") = None ->
           QueryService.is_printer_online py_str dumps release self sn w
           = (Ok (VBool false), w'))
          /\ (forall d,
                dict_get resp (lit "data") = Some (VDict d) ->
                QueryService.is_printer_online py_str dumps release self sn w
                = (Ok (get_or d (lit "connected") (VBool false)), w'))).
Proof.
  intros py_str dumps release self sn w. split.
  - intros ->. reflexivity.
  - intros resp w' Hsn Hquery.
    destruct sn as [|c sn]; [congruence|].
    split; [|intros d];
      (unfold QueryService.is_printer_online, QueryService.get_printer_status;
       cbn [str_truthy negb]; unfold bind at 1 2; rewrite Hquery;
       unfold QueryService._parse_printer_status;
       rewrite call_get_dict; unfold bind at 1; unfold ret at 1; unfold get_or;
       intros Hdata; rewrite !Hdata).
    + reflexivity.
    + rewrite !call_get_dict. unfold bind, ret. reflexivity.
Qed.

Lemma is_printer_online_reads_connected_witness :
  QueryService.is_printer_online scalar_str scalar_str Requests_since_2_27
    (QueryService.Build shop) (lit "SN1")
    (answering (VDict [(lit "code", VInt 0);
                       (lit "data", VDict [(lit "connected", VStr (lit "no"))])]))
  = (Ok (VStr (lit "no")),
     snd (Client.query_printer_status scalar_str scalar_str Requests_since_2_27 shop
            (lit "SN1")
            (answering (VDict [(lit "code", VInt 0);
                               (lit "data",
                                VDict [(lit "connected", VStr (lit "no"))])])))).
Proof.
  refine (proj2 (proj2 (is_printer_online_reads_connected scalar_str scalar_str
                          Requests_since_2_27 (QueryService.Build shop) (lit "SN1")
                          (answering (VDict [(lit "code", VInt 0);
                                             (lit "data",
                                              VDict [(lit "connected",
                                                      VStr (lit "no"))])])))
                       [(lit "code", VInt 0);
                        (lit "data", VDict [(lit "connected", VStr (lit "no"))])]
                       _ ltac:(discriminate) _)
                [(lit "connected", VStr (lit "no"))] eq_refl).
  vm_compute. reflexivity.
Defined.

(* ================================================================= *)
(** ** voice_service.py *)








(** X19.  In [print_and_voice] the print comes first and decides what
    is returned.  If the print fails, the call fails the same way and no
    voice is played.  If it succeeds, its answer is returned untouched
    when voice is off or there is no amount, and after the voice call
    when that call returns.  When the voice call raises an [Exception],
    the failure is reported on the console and the print's answer is
    returned, provided the console takes the report; when the console
    refuses it, the call raises what the console raised, with the voice
    failure as its context, although the print job has been sent.  What
    the voice call raises outside [Exception] passes through. *)
Theorem print_and_voice_keeps_print_result :
  forall (py_str dumps : value -> str) (release : requests_release)
         (upper : str -> str) (out : console) (self : VoiceService.t) (sn content : str)
         (amount : option float) (voice_enabled : bool) (pay_type : str) (w : world),
    (forall e w1,
        PrintService.print_receipt py_str dumps release
          (PrintService.Build (VoiceService.client self)) sn content 1 [] true
          voice_enabled w = (Raise e, w1) ->
        VoiceService.print_and_voice py_str dumps release upper out self sn content
          amount voice_enabled pay_type w = (Raise e, w1))
    /\ (forall v w1,
          PrintService.print_receipt py_str dumps release
            (PrintService.Build (VoiceService.client self)) sn content 1 [] true
            voice_enabled w = (Ok v, w1) ->
          (voice_enabled = false \/ amount = None ->
           VoiceService.print_and_voice py_str dumps release upper out self sn content
             amount voice_enabled pay_type w = (Ok v, w1))
          /\ (forall a r w2,
                voice_enabled = true -> amount = Some a ->
                VoiceService.play_amount_voice py_str dumps release upper self sn a
                  pay_type w1 = (r, w2) ->
                (forall v2, r = Ok v2 ->
                   VoiceService.print_and_voice py_str dumps release upper out self sn
                     content amount voice_enabled pay_type w = (Ok v, w2))
                /\ (forall e, r = Raise e -> isinstance e Exception = true ->
                      out (msg_voice_failed ++ exc_str e) = None ->
                      exists w3,
                        VoiceService.print_and_voice py_str dumps release upper out self
                          sn content amount voice_enabled pay_type w = (Ok v, w3)
                        /\ posts w3 = posts w2
                        /\ stdout w3 = stdout w2 ++ [msg_voice_failed ++ exc_str e])
                /\ (forall e e2, r = Raise e -> isinstance e Exception = true ->
                      out (msg_voice_failed ++ exc_str e) = Some e2 ->
                      VoiceService.print_and_voice py_str dumps release upper out self
                        sn content amount voice_enabled pay_type w
                      = (Raise (with_context e2 e), w2))
                /\ (forall e, r = Raise e -> isinstance e Exception = false ->
                      VoiceService.print_and_voice py_str dumps release upper out self
                        sn content amount voice_enabled pay_type w = (Raise e, w2)))).
Proof.
  intros py_str dumps release upper out self sn content amount voice_enabled pay_type w.
  split.
  - intros e w1 Hprint. unfold VoiceService.print_and_voice.
    unfold bind at 1. now rewrite Hprint.
  - intros v w1 Hprint. split.
    + intros Hoff. unfold VoiceService.print_and_voice.
      unfold bind at 1. rewrite Hprint.
      destruct Hoff as [-> | ->]; [reflexivity|].
      destruct voice_enabled; reflexivity.
    + intros a r w2 -> -> Hvoice.
      split; [|split; [|split]].
      * intros v2 Hr. rewrite Hr in Hvoice. run_print_and_voice Hprint Hvoice.
        reflexivity.
      * intros e Hr Hexc Hout. rewrite Hr in Hvoice.
        run_print_and_voice Hprint Hvoice.
        cbn [select]. rewrite Hexc. unfold print_in_handler. rewrite Hout. cbn.
        eexists. split; [reflexivity|]. split; reflexivity.
      * intros e e2 Hr Hexc Hout. rewrite Hr in Hvoice.
        run_print_and_voice Hprint Hvoice.
        cbn [select]. rewrite Hexc. unfold print_in_handler. rewrite Hout. reflexivity.
      * intros e Hr Hexc. rewrite Hr in Hvoice. run_print_and_voice Hprint Hvoice.
        cbn [select]. rewrite Hexc. reflexivity.
Qed.

Lemma print_and_voice_keeps_print_result_witness :
  (exists w3,
      VoiceService.print_and_voice scalar_str scalar_str Requests_since_2_27 ascii_upper
        utf8_console (VoiceService.Build shop) (lit "SN1") (lit "hello") (Some 25.5%float)
        true (lit "bitcoin") (answering (VDict [(lit "code", VInt 0)]))
      = (Ok (VDict [(lit "code", VInt 0)]), w3)
      /\ length (posts w3) = 1%nat
      /\ stdout w3 = [msg_voice_failed ++ msg_pay_type_unsupported ++ lit "bitcoin"])
  /\ fst (VoiceService.print_and_voice scalar_str scalar_str Requests_since_2_27
            ascii_upper utf8_console (VoiceService.Build shop) (lit "SN1") (lit "hello")
            (Some 25.5%float) true [0xD83D]%N (answering (VDict [(lit "code", VInt 0)])))
     = Raise (with_context encode_error
                (PyExc XpyunError (msg_pay_type_unsupported ++ [0xD83D]%N) [] None)).
Proof.
  split.
  - destruct (print_and_voice_keeps_print_result scalar_str scalar_str
                Requests_since_2_27 ascii_upper utf8_console (VoiceService.Build shop)
                (lit "SN1") (lit "hello") (Some 25.5%float) true (lit "bitcoin")
                (answering (VDict [(lit "code", VInt 0)])))
      as (_ & Hok).
    destruct (Hok (VDict [(lit "code", VInt 0)])
                  (snd (PrintService.print_receipt scalar_str scalar_str
                          Requests_since_2_27 (PrintService.Build shop) (lit "SN1")
                          (lit "hello") 1 [] true true
                          (answering (VDict [(lit "code", VInt 0)])))))
      as (_ & Hvoice); [vm_compute; reflexivity|].
    destruct (Hvoice 25.5%float
                     (Raise (PyExc XpyunError
                               (msg_pay_type_unsupported ++ lit "bitcoin") [] None))
                     (snd (PrintService.print_receipt scalar_str scalar_str
                             Requests_since_2_27 (PrintService.Build shop) (lit "SN1")
                             (lit "hello") 1 [] true true
                             (answering (VDict [(lit "code", VInt 0)]))))
                     eq_refl eq_refl)
      as (_ & Hreport & _); [vm_compute; reflexivity|].
    destruct (Hreport (PyExc XpyunError (msg_pay_type_unsupported ++ lit "bitcoin") []
                         None) eq_refl eq_refl)
      as (w3 & Hrun & Hposts & Hout); [vm_compute; reflexivity|].
    exists w3. split; [exact Hrun|]. split.
    + rewrite Hposts. vm_compute. reflexivity.
    + rewrite Hout. vm_compute. reflexivity.
  - destruct (print_and_voice_keeps_print_result scalar_str scalar_str
                Requests_since_2_27 ascii_upper utf8_console (VoiceService.Build shop)
                (lit "SN1") (lit "hello") (Some 25.5%float) true [0xD83D]%N
                (answering (VDict [(lit "code", VInt 0)])))
      as (_ & Hok).
    destruct (Hok (VDict [(lit "code", VInt 0)])
                  (snd (PrintService.print_receipt scalar_str scalar_str
                          Requests_since_2_27 (PrintService.Build shop) (lit "SN1")
                          (lit "hello") 1 [] true true
                          (answering (VDict [(lit "code", VInt 0)])))))
      as (_ & Hvoice); [vm_compute; reflexivity|].
    destruct (Hvoice 25.5%float
                     (Raise (PyExc XpyunError
                               (msg_pay_type_unsupported ++ [0xD83D]%N) [] None))
                     (snd (PrintService.print_receipt scalar_str scalar_str
                             Requests_since_2_27 (PrintService.Build shop) (lit "SN1")
                             (lit "hello") 1 [] true true
                             (answering (VDict [(lit "code", VInt 0)]))))
                     eq_refl eq_refl)
      as (_ & _ & Hrefused & _); [vm_compute; reflexivity|].
    rewrite (Hrefused (PyExc XpyunError (msg_pay_type_unsupported ++ [0xD83D]%N) [] None)
               encode_error eq_refl eq_refl); [reflexivity|].
    vm_compute. reflexivity.
Defined.

(** X20.  [validate_voice_support] checks nothing about voice: when the
    status query succeeds it answers [True] for an answer without [data]
    and for any [data] object that has no [voiceQuality] or a
    [voiceQuality] other than [null]; only an explicit [null] gives
    [False]. *)
Theorem validate_voice_support_defaults_to_true :
  forall (py_str dumps : value -> str) (release : requests_release)
         (self : VoiceService.t) (sn : str) (w w' : world) (resp : dict),
    Client.query_printer_status py_str dumps release (VoiceService.client self) sn w
    = (Ok (VDict resp), w') ->
    (dict_get resp (lit "data") = None ->
     VoiceService.validate_voice_support py_str dumps release self sn w = (Ok true, w'))
    /\ (forall d,
          dict_get resp (lit "data") = Some (VDict d) ->
          VoiceService.validate_voice_support py_str dumps release self sn w
          = (Ok (match dict_get d (lit "voiceQuality") with
                 | Some VNone => false
                 | _ => true
                 end), w')).
Proof.
  intros py_str dumps release self sn w w' resp Hquery.
  split; [|intros d];
    (unfold VoiceService.validate_voice_support, VoiceService.get_voice_settings;
     unfold bind at 1 2; rewrite Hquery;
     rewrite call_get_dict; unfold bind at 1; unfold ret at 1; unfold get_or;
     intros Hdata; rewrite !Hdata).
  - reflexivity.
  - rewrite !call_get_dict. unfold bind, ret, get_or. cbn.
    match goal with
    | |- context [dict_get d ?k] => destruct (dict_get d k) as [[]|]
    end; reflexivity.
Qed.

Lemma validate_voice_support_defaults_to_true_witness :
  VoiceService.validate_voice_support scalar_str scalar_str Requests_since_2_27
    (VoiceService.Build shop) (lit "SN1")
    (answering (VDict [(lit "code", VInt 0); (lit "data", VDict [])]))
  = (Ok true,
     snd (Client.query_printer_status scalar_str scalar_str Requests_since_2_27 shop
            (lit "SN1")
            (answering (VDict [(lit "code", VInt 0); (lit "data", VDict [])])))).
Proof.
  refine (proj2 (validate_voice_support_defaults_to_true scalar_str scalar_str
                   Requests_since_2_27 (VoiceService.Build shop) (lit "SN1")
                   (answering (VDict [(lit "code", VInt 0); (lit "data", VDict [])]))
                   _ [(lit "code", VInt 0); (lit "data", VDict [])] _)
                [] eq_refl).
  vm_compute. reflexivity.
Defined.

(* ================================================================= *)
(** ** query_service.py: [format_duration] *)



(* ================================================================= *)
(** ** One family of errors *)

Lemma make_request_raises_sdk_error py_str dumps release self method params w e :
  good_credentials self = true ->
  transport_raises_exceptions_only w ->
  fst (_make_request py_str dumps release self method params w) = Raise e ->
  isinstance e XpyunError = true.
Proof.
  intros Hgood Htransport Hrun.
  destruct (good_credentials_encode self w Hgood) as (data & Hdata & _).
  pose proof (prepare_run self params w) as Hp. rewrite Hdata in Hp.
  destruct (fst (attempt py_str dumps release self method
                   (merged (generated self w (SHA1.hexdigest (SHA1.sha1 data))) params)
                   (tick (tick w)))) as [v|e0] eqn:Ha.
  - rewrite (make_request_ok py_str dumps release self method params w _ _ v Hp Ha)
      in Hrun. discriminate.
  - rewrite (make_request_raise py_str dumps release self method params w _ _ e0 Hp Ha)
      in Hrun.
    assert (Hexc : isinstance e0 Exception = true).
    { destruct (attempt_raise_origin _ _ _ _ _ _ _ _ Ha) as [Hremote|Hexc];
        [|exact Hexc].
      exact (Htransport _ _ _ Hremote). }
    destruct (isinstance e0 RequestException); [inversion Hrun; reflexivity|].
    destruct (isinstance e0 JSONDecodeError); [inversion Hrun; reflexivity|].
    destruct (isinstance e0 XpyunAPIError) eqn:Hapi.
    + inversion Hrun; subst e0. unfold isinstance.
      now rewrite (isinstance_api_error _ Hapi).
    + rewrite Hexc in Hrun. inversion Hrun. reflexivity.
Qed.

(** X22.  With good credentials and a transport that raises nothing
    outside [Exception], every error of every API method of the client
    is an [XpyunError] or one of its subclasses: a caller's
    [except XpyunError] catches them all. *)
Theorem api_methods_raise_sdk_errors_only :
  forall (py_str dumps : value -> str) (release : requests_release)
         (self : XpyunClient) (c : Client.call) (w : world) (e : pyexc),
    good_credentials self = true ->
    transport_raises_exceptions_only w ->
    fst (Client.invoke py_str dumps release self c w) = Raise e ->
    isinstance e XpyunError = true.
Proof.
  intros py_str dumps release self c w e Hgood Htransport.
  destruct c; cbn [Client.invoke];
    unfold Client.add_printers, Client.print_ticket, Client.print_label,
      Client.del_printers, Client.upd_printer, Client.del_printer_queue,
      Client.query_order_state, Client.query_order_statistics,
      Client.query_printer_status, Client.query_printers_status,
      Client.set_voice_type, Client.play_voice;
    apply make_request_raises_sdk_error; assumption.
Qed.

Lemma api_methods_raise_sdk_errors_only_witness :
  isinstance (PyExc XpyunNetworkError (msg_network_failed ++ lit "refused") []
                (Some (PyExc ConnectionError (lit "refused") [] None)))
    XpyunError = true.
Proof.
  refine (api_methods_raise_sdk_errors_only scalar_str scalar_str Requests_since_2_27
            shop (Client.DelPrinterQueue (lit "SN1"))
            (world_with (Failed (PyExc ConnectionError (lit "refused") [] None)))
            _ eq_refl _ eq_refl).
  intros k rq e He. inversion He. reflexivity.
Defined.

(** X23.  The same holds one level up: whatever [print_receipt] and
    [print_label] of [PrintService] raise, a refused argument or a failed
    request, is an [XpyunError] or one of its subclasses. *)
Theorem print_service_raises_sdk_errors_only :
  forall (py_str dumps : value -> str) (release : requests_release)
         (self : PrintService.t) (sn content : str) (w : world) (e : pyexc),
    good_credentials (PrintService.client self) = true ->
    transport_raises_exceptions_only w ->
    (forall copies code_u auto_print voice_enabled,
        fst (PrintService.print_receipt py_str dumps release self sn content copies
               code_u auto_print voice_enabled w) = Raise e ->
        isinstance e XpyunError = true)
    /\ (forall height width quantity top_margin left_margin code_u,
          fst (PrintService.print_label py_str dumps release self sn content height
                 width quantity top_margin left_margin code_u w) = Raise e ->
          isinstance e XpyunError = true).
Proof.
  intros py_str dumps release self sn content w e Hgood Htransport.
  split.
  - intros copies code_u auto_print voice_enabled.
    unfold PrintService.print_receipt.
    destruct (negb (str_truthy sn) || negb (str_truthy content));
      [cbn; intros H; inversion H; reflexivity|].
    destruct ((copies <? 1) || (copies >? 10))%Z;
      [cbn; intros H; inversion H; reflexivity|].
    unfold Client.print_ticket. apply make_request_raises_sdk_error; assumption.
  - intros height width quantity top_margin left_margin code_u.
    unfold PrintService.print_label.
    destruct (negb (str_truthy sn) || negb (str_truthy content));
      [cbn; intros H; inversion H; reflexivity|].
    destruct ((height <=? 0) || (width <=? 0))%Z;
      [cbn; intros H; inversion H; reflexivity|].
    destruct ((quantity <? 1) || (quantity >? 100))%Z;
      [cbn; intros H; inversion H; reflexivity|].
    unfold Client.print_label. apply make_request_raises_sdk_error; assumption.
Qed.

Lemma print_service_raises_sdk_errors_only_witness :
  isinstance (PyExc XpyunError msg_copies_range [] None) XpyunError = true.
Proof.
  refine (proj1 (print_service_raises_sdk_errors_only scalar_str scalar_str
                   Requests_since_2_27 (PrintService.Build shop) (lit "SN1")
                   (lit "hello")
                   (world_with (Failed (PyExc ConnectionError (lit "refused") [] None)))
                   (PyExc XpyunError msg_copies_range [] None) eq_refl _)
                0%Z [] true false eq_refl).
  intros k rq e He. inversion He. reflexivity.
Defined.

(* ================================================================= *)
(** ** client.py: JSON beyond the decoder's limits *)

(** X24.  A response that passes the status check and whose body is
    JSON beyond a limit of the decoder (an integer with too many digits,
    nesting too deep) is neither returned nor turned into an
    [XpyunAPIError] or a parse failure: the decoder's [ValueError] or
    [RecursionError] reaches the last clause and comes out as the generic
    [XpyunError] with the "unknown error" text, after the one POST.  For
    a client with debug on this supposes that the console takes the
    request line. *)
Theorem decoder_limit_is_generic_error :
  forall (py_str dumps : value -> str) (release : requests_release) (out : console)
         (self : XpyunClient) (method : str) (params : option dict) (w : world)
         (r : response) (l : decoder_limit) (complaint : str),
    answer self method params w = Some (Responded r) ->
    http_error_msg r = None ->
    content r = OverLimit l complaint ->
    (debug self = true ->
     forall rd w1,
       prepare_request_data self params w = (Ok rd, w1) ->
       out (request_line dumps rd) = None) ->
    fst (_make_request_on py_str dumps release out self method params w)
    = Raise (PyExc XpyunError (msg_unknown_error ++ lit ": " ++ complaint) []
               (Some (PyExc (limit_class l) complaint [] None)))
    /\ isinstance (PyExc (limit_class l) complaint [] None) JSONDecodeError = false
    /\ exists rq,
         posts (snd (_make_request_on py_str dumps release out self method params w))
         = posts w ++ [rq].
Proof.
  intros py_str dumps release out self method params w r l complaint Hans Hm Hc Hreq.
  destruct (answer_inv _ _ _ _ _ Hans) as (rd & w1 & Hp & Hremote).
  assert (Hagree : _make_request_on py_str dumps release out self method params w
                   = _make_request py_str dumps release self method params w).
  { apply make_request_on_agrees. intros Hd rd' w1' Hp'.
    split; [exact (Hreq Hd rd' w1' Hp')|].
    intros r' v' Hremote' _ Hc'.
    rewrite Hp in Hp'. inversion Hp'; subst rd' w1'.
    rewrite Hremote in Hremote'. inversion Hremote'; subst r'.
    rewrite Hc in Hc'. discriminate Hc'. }
  rewrite Hagree. split; [|split].
  - rewrite (make_request_raise py_str dumps release self method params w rd w1 _ Hp
               (attempt_over_limit py_str dumps release self method rd w1 r l complaint
                  Hremote Hm Hc)).
    destruct l; reflexivity.
  - destruct l; reflexivity.
  - exists (request_for self method rd).
    exact (make_request_posts py_str dumps release self method params w rd w1 Hp).
Qed.

Lemma decoder_limit_is_generic_error_witness :
  fst (_make_request_on scalar_str flat_dumps Requests_since_2_27 utf8_console
         (with_debug shop true) (lit "print") None
         (world_with (Responded too_many_digits)))
  = Raise (PyExc XpyunError (msg_unknown_error ++ lit ": " ++ digits_complaint) []
             (Some (PyExc ValueError digits_complaint [] None))).
Proof.
  refine (proj1 (decoder_limit_is_generic_error scalar_str flat_dumps
                   Requests_since_2_27 utf8_console (with_debug shop true)
                   (lit "print") None (world_with (Responded too_many_digits))
                   too_many_digits DigitLimit digits_complaint
                   eq_refl eq_refl eq_refl _)).
  intros _ rd w1 Hp. vm_compute in Hp. inversion Hp; subst rd. vm_compute. reflexivity.
Defined.
